(** * Ray executors of rlgraph: a shallow embedding and its properties

    The development follows two source files:
    - [yarl/execution/ray/ray_executor.py]   (class [RayExecutor]),
    - [rlgraph/execution/ray/sync_batch_executor.py] (class [SyncBatchExecutor]).

    Python objects are modelled by records, Python statements by a state and
    exception monad over a [world] that holds the executor's attributes, the
    Ray runtime (actors, submitted remote calls) and the monotonic clock.
    Python integers are [Z]; Python floats are idealised as rationals [Q]
    (only equality with zero, order and the field operations are used). *)

From Stdlib Require Import ZArith QArith Qminmax List String Lia DecimalString
  DecimalNat.
From stdpp Require Import gmap strings list fin_maps.
Open Scope Z_scope.

(** ** Python values, exceptions and numpy reductions *)

Module Py.

(** The exceptions the modelled code can raise. [RayActorError] is what
    [ray.get] raises for a call on an actor the runtime does not know;
    [DuplicateTaskError] is the task pool's. *)
Inductive exn :=
| ValueError | ZeroDivisionError | AssertionError | AttributeError
| KeyError | TypeError | IndexError | NotImplementedError
| RayActorError | DuplicateTaskError.

(** What running a piece of code gives: a value, an exception, or no answer
    within the loop budget. *)
Inductive outcome (A : Type) :=
| Ret (a : A)
| Raise (e : exn)
| OutOfFuel.
Arguments Ret {A} a.
Arguments Raise {A} e.
Arguments OutOfFuel {A}.

#[warnings="-register-all"] Inductive pyval :=
| PNone
| PBool (b : bool)
| PInt (z : Z)
| PFloat (q : Q)
| PStr (s : string)
| PDict (items : list (string * pyval)).

(** [x is True] *)
Definition is_True (v : pyval) : bool :=
  match v with PBool true => true | _ => false end.

(** [a, b = t] for a tuple [t] of integers: exactly two components, else
    [ValueError] (too many / not enough values to unpack). *)
Definition unpack2 (t : list Z) : outcome (Z * Z) :=
  match t with
  | [a; b] => Ret (a, b)
  | _ => Raise ValueError
  end.

(** insertion-ordered [dict]: [k in d], [d.get(k, None)], [d[k] = v] *)
Section Dict.
Context {K V : Type} `{EqDecision K}.

Fixpoint dict_get (d : list (K * V)) (k : K) : option V :=
  match d with
  | [] => None
  | (k', v) :: d' => if decide (k' = k) then Some v else dict_get d' k
  end.

Definition dict_contains (d : list (K * V)) (k : K) : bool :=
  match dict_get d k with Some _ => true | None => false end.

Fixpoint dict_set (d : list (K * V)) (k : K) (v : V) : list (K * V) :=
  match d with
  | [] => [(k, v)]
  | (k', v') :: d' =>
      if decide (k' = k) then (k', v) :: d' else (k', v') :: dict_set d' k v
  end.

Definition dict_keys (d : list (K * V)) : list K := map fst d.
Definition dict_values (d : list (K * V)) : list V := map snd d.
End Dict.

Definition get_or_None (d : list (string * pyval)) (k : string) : pyval :=
  match dict_get d k with Some v => v | None => PNone end.

(** ["worker_{}".format(i)] *)
Definition format_worker (i : nat) : string :=
  ("worker_" ++ NilZero.string_of_uint (Nat.to_uint i))%string.

(** numpy reductions over a non-empty list of floats; [np.min] and [np.max]
    raise [ValueError] on an empty one. *)
Definition Qsum (l : list Q) : Q := fold_left Qplus l 0%Q.

Definition np_min (l : list Q) : outcome Q :=
  match l with
  | [] => Raise ValueError
  | x :: xs => Ret (fold_left Qmin xs x)
  end.

Definition np_max (l : list Q) : outcome Q :=
  match l with
  | [] => Raise ValueError
  | x :: xs => Ret (fold_left Qmax xs x)
  end.

(** [np.mean]: sum over length.  On the empty list numpy answers [nan]; every
    call below comes after an [np.min] of a list of the same length, which
    has raised by then. *)
Definition np_mean (l : list Q) : Q :=
  (Qsum l / inject_Z (Z.of_nat (length l)))%Q.

(** [np.sum] of a list of integers *)
Definition np_sum (l : list Z) : Z := fold_left Z.add l 0.

End Py.
Export Py.

(** [d.pop(k)] leaves the dict without the key [k]. *)
Fixpoint dict_remove {K V : Type} `{EqDecision K} (d : list (K * V)) (k : K)
    : list (K * V) :=
  match d with
  | [] => []
  | (k', v) :: d' =>
      if decide (k' = k) then dict_remove d' k else (k', v) :: dict_remove d' k
  end.

(** ** The world: executor attributes, Ray runtime, clock *)

(** A worker handle is the index of its actor in the runtime's actor table. *)
Definition worker := nat.

(** The dictionary a worker answers to [get_workload_statistics]. *)
Record metrics := Metrics {
  min_episode_reward : Q;
  max_episode_reward : Q;
  mean_episode_reward : Q;
  final_episode_reward : Q;
  episodes_executed : Z;
  worker_steps : Z;
  mean_worker_ops_per_second : Q;
  mean_worker_env_frames_per_second : Q;
  episode_rewards : list Q;
  episode_timesteps : list Z
}.

(** A remote actor: the address of the config object its constructor got, the
    further constructor arguments, and what it answers to the two queries. *)
Record actor := Actor {
  actor_config : nat;
  actor_args : list pyval;
  constructor_success : pyval;
  workload_statistics : metrics
}.

(** Remote methods of a worker. *)
Inductive method :=
| get_constructor_success
| get_workload_statistics
| execute_and_get_with_count.

Global Instance method_eq_dec : EqDecision method.
Proof. solve_decision. Defined.

Inductive level := INFO | WARNING.

Global Instance level_eq_dec : EqDecision level.
Proof. solve_decision. Defined.

(** A log line: level, format string, and the arguments of [format]. *)
Record log_record := LogRecord {
  lvl : level;
  fmt : string;
  fmt_args : list pyval
}.

(** A key of [ray_env_sample_workers] when it is a dict. *)
Inductive pykey :=
| KStr (s : string)
| KWorker (w : worker).

Global Instance pykey_eq_dec : EqDecision pykey.
Proof. solve_decision. Defined.

(** The attribute [ray_env_sample_workers]: [None] after [__init__], the list
    [create_remote_workers] returned after [setup_execution]; [result_by_worker]
    reads it as a dict. *)
Inductive sample_workers :=
| AttrNone
| AttrList (ws : list worker)
| AttrDict (d : list (pykey * worker)).

(** The keyword arguments of one [ray.init] call. *)
Record ray_init_call := RayInit {
  redis_address : pyval;
  num_cpus : pyval;
  num_gpus : pyval
}.

(** Attributes of a [RayExecutor] object. *)
Record executor := Executor {
  cluster_spec : list (string * pyval);
  ray_env_sample_workers : sample_workers;
  worker_ids : list (worker * string);
  env_sample_iteration_throughputs : option (list Q);
  update_iteration_throughputs : option (list Q);
  logger : list log_record
}.

(** The environment of the executor.
    - [heap]: the mutable config objects, by address;
    - [ray_inits]: the calls of [ray.init] so far;
    - [actors]: the actors created so far, by handle;
    - [submitted]: the remote calls submitted so far; the position of a call
      is the identifier of its future;
    - [waits]: how many times the runtime was asked for completed tasks;
      [task_done k t] tells whether the future [t] is finished when the
      [k]-th such wait returns, [task_count t] the sample count it reports;
    - [clock i]: what the [i]-th reading of [time.monotonic()] gives. *)
Record ray_runtime := Runtime {
  heap : list pyval;
  ray_inits : list ray_init_call;
  actors : list actor;
  submitted : list (worker * method);
  waits : nat;
  task_done : nat -> nat -> bool;
  task_count : nat -> Z;
  clock : nat -> Q;
  clock_reads : nat
}.

(** [sub] holds the attributes a subclass of [RayExecutor] adds. *)
Record world (X : Type) := World {
  self : executor;
  ray : ray_runtime;
  sub : X
}.
Arguments World {X} self ray sub.
Arguments self {X} w.
Arguments ray {X} w.
Arguments sub {X} w.

Definition set_worker_ids (f : list (worker * string) -> list (worker * string))
    (e : executor) : executor :=
  Executor (cluster_spec e) (ray_env_sample_workers e) (f (worker_ids e))
           (env_sample_iteration_throughputs e) (update_iteration_throughputs e)
           (logger e).

Definition set_ray_env_sample_workers (v : sample_workers) (e : executor) : executor :=
  Executor (cluster_spec e) v (worker_ids e)
           (env_sample_iteration_throughputs e) (update_iteration_throughputs e)
           (logger e).

Definition set_env_sample_iteration_throughputs (v : option (list Q))
    (e : executor) : executor :=
  Executor (cluster_spec e) (ray_env_sample_workers e) (worker_ids e)
           v (update_iteration_throughputs e) (logger e).

Definition set_update_iteration_throughputs (v : option (list Q))
    (e : executor) : executor :=
  Executor (cluster_spec e) (ray_env_sample_workers e) (worker_ids e)
           (env_sample_iteration_throughputs e) v (logger e).

Definition set_logger (f : list log_record -> list log_record) (e : executor) : executor :=
  Executor (cluster_spec e) (ray_env_sample_workers e) (worker_ids e)
           (env_sample_iteration_throughputs e) (update_iteration_throughputs e)
           (f (logger e)).

Definition set_heap (f : list pyval -> list pyval) (r : ray_runtime) : ray_runtime :=
  Runtime (f (heap r)) (ray_inits r) (actors r) (submitted r) (waits r)
          (task_done r) (task_count r) (clock r) (clock_reads r).

Definition set_ray_inits (f : list ray_init_call -> list ray_init_call)
    (r : ray_runtime) : ray_runtime :=
  Runtime (heap r) (f (ray_inits r)) (actors r) (submitted r) (waits r)
          (task_done r) (task_count r) (clock r) (clock_reads r).

Definition set_actors (f : list actor -> list actor) (r : ray_runtime) : ray_runtime :=
  Runtime (heap r) (ray_inits r) (f (actors r)) (submitted r) (waits r)
          (task_done r) (task_count r) (clock r) (clock_reads r).

Definition set_submitted (f : list (worker * method) -> list (worker * method))
    (r : ray_runtime) : ray_runtime :=
  Runtime (heap r) (ray_inits r) (actors r) (f (submitted r)) (waits r)
          (task_done r) (task_count r) (clock r) (clock_reads r).

Definition set_waits (n : nat) (r : ray_runtime) : ray_runtime :=
  Runtime (heap r) (ray_inits r) (actors r) (submitted r) n
          (task_done r) (task_count r) (clock r) (clock_reads r).

Definition set_clock_reads (n : nat) (r : ray_runtime) : ray_runtime :=
  Runtime (heap r) (ray_inits r) (actors r) (submitted r) (waits r)
          (task_done r) (task_count r) (clock r) n.

(** ** The monad of Python statements *)

Definition M (X A : Type) : Type := world X -> outcome A * world X.

Definition ret {X A} (a : A) : M X A := fun w => (Ret a, w).

Definition raise {X A} (e : exn) : M X A := fun w => (Raise e, w).

Definition out_of_fuel {X A} : M X A := fun w => (OutOfFuel, w).

Definition bind {X A B} (c : M X A) (k : A -> M X B) : M X B :=
  fun w =>
    match c w with
    | (Ret a, w') => k a w'
    | (Raise e, w') => (Raise e, w')
    | (OutOfFuel, w') => (OutOfFuel, w')
    end.

Notation "x <- c ;; k" := (bind c (fun x => k))
  (at level 100, c at next level, right associativity).
Notation "c ;;; k" := (bind c (fun _ => k))
  (at level 100, right associativity).

Definition lift {X A} (o : outcome A) : M X A := fun w => (o, w).

Definition on_self {X} (f : executor -> executor) : M X unit :=
  fun w => (Ret tt, World (f (self w)) (ray w) (sub w)).

Definition on_ray {X} (f : ray_runtime -> ray_runtime) : M X unit :=
  fun w => (Ret tt, World (self w) (f (ray w)) (sub w)).

Definition on_sub {X} (f : X -> X) : M X unit :=
  fun w => (Ret tt, World (self w) (ray w) (f (sub w))).

Definition get_self {X A} (f : executor -> A) : M X A := fun w => (Ret (f (self w)), w).
Definition get_ray {X A} (f : ray_runtime -> A) : M X A := fun w => (Ret (f (ray w)), w).
Definition get_sub {X A} (f : X -> A) : M X A := fun w => (Ret (f (sub w)), w).

(** [for x in l: body] *)
Fixpoint for_each {X A} (l : list A) (body : A -> M X unit) : M X unit :=
  match l with
  | [] => ret tt
  | x :: l' => body x ;;; for_each l' body
  end.

(** [self.logger.info(fmt.format(args...))] and [self.logger.warning(...)] *)
Definition logger_info {X} (f : string) (args : list pyval) : M X unit :=
  on_self (set_logger (fun l => l ++ [LogRecord INFO f args])).

Definition logger_warning {X} (f : string) (args : list pyval) : M X unit :=
  on_self (set_logger (fun l => l ++ [LogRecord WARNING f args])).

(** [time.monotonic()] *)
Definition monotonic {X} : M X Q :=
  n <- get_ray clock_reads ;;
  t <- get_ray (fun r => clock r n) ;;
  on_ray (set_clock_reads (S n)) ;;;
  ret t.

(** [a / b] with [from __future__ import division]: [ZeroDivisionError] when
    the divisor is zero. *)
Definition truediv {X} (a b : Q) : M X Q :=
  if Qeq_bool b 0 then raise ZeroDivisionError else ret (a / b)%Q.

(** [w.method.remote()]: the call is submitted, its future is its position. *)
Definition remote {X} (w : worker) (m : method) : M X nat :=
  t <- get_ray (fun r => length (submitted r)) ;;
  on_ray (set_submitted (fun l => l ++ [(w, m)])) ;;;
  ret t.

(** [ray.get(task)] for a query of an actor's state *)
Definition ray_get_actor {X} (w : worker) : M X actor :=
  acs <- get_ray actors ;;
  match acs !! w with
  | Some a => ret a
  | None => raise RayActorError
  end.

(** [l[i]] *)
Definition list_getitem {X A} (l : list A) (i : nat) : M X A :=
  match l !! i with
  | Some x => ret x
  | None => raise IndexError
  end.

(** [copy.deepcopy(obj)] for the object at address [a]: a fresh cell with the
    same contents.  Values are trees, so the copy shares nothing with the
    original. *)
Definition deepcopy {X} (a : nat) : M X nat :=
  h <- get_ray heap ;;
  on_ray (set_heap (fun h => h ++ [default PNone (h !! a)])) ;;;
  ret (length h).

(** The result dictionaries. *)
Module WorkerStats.
Record t := Make {
  min_reward : Q;
  max_reward : Q;
  mean_reward : Q;
  mean_final_reward : Q;
  episodes_executed : Z;
  steps_executed : Z;
  mean_worker_op_throughput : Q;
  min_worker_op_throughput : Q;
  max_worker_op_throughput : Q;
  mean_worker_env_frame_throughput : Q
}.

Definition to_dict (s : t) : pyval :=
  PDict [("min_reward"%string, PFloat (min_reward s));
         ("max_reward"%string, PFloat (max_reward s));
         ("mean_reward"%string, PFloat (mean_reward s));
         ("mean_final_reward"%string, PFloat (mean_final_reward s));
         ("episodes_executed"%string, PInt (episodes_executed s));
         ("steps_executed"%string, PInt (steps_executed s));
         ("mean_worker_op_throughput"%string, PFloat (mean_worker_op_throughput s));
         ("min_worker_op_throughput"%string, PFloat (min_worker_op_throughput s));
         ("max_worker_op_throughput"%string, PFloat (max_worker_op_throughput s));
         ("mean_worker_env_frame_throughput"%string,
           PFloat (mean_worker_env_frame_throughput s))].
End WorkerStats.

Module WorkloadResult.
Record t := Make {
  runtime : Q;
  timesteps_executed : Z;
  ops_per_second : Q;
  min_iteration_sample_throughput : Q;
  max_iteration_sample_throughput : Q;
  mean_iteration_sample_throughput : Q;
  min_iteration_update_throughput : Q;
  max_iteration_update_throughput : Q;
  mean_iteration_update_throughput : Q;
  mean_worker_op_throughput : Q;
  max_worker_op_throughput : Q;
  min_worker_op_throughput : Q;
  mean_worker_reward : Q;
  max_worker_reward : Q;
  min_worker_reward : Q;
  final_reward : Q
}.
End WorkloadResult.

(** ** [class RayExecutor] *)

Module RayExecutor.
Section Methods.
Context {X : Type}.

(** [__init__(cluster_spec)]: the attributes of a new executor. *)
Definition __init__ (cluster_spec : list (string * pyval)) : executor :=
  Executor cluster_spec AttrNone [] None None [].

(** [ray_init]: [ray.init] itself is recorded, not executed. *)
Definition ray_init : M X unit :=
  logger_info "Initializing Ray cluster with cluster spec:" [] ;;;
  spec <- get_self cluster_spec ;;
  for_each spec (fun kv => logger_info "{}: {}" [PStr (fst kv); snd kv]) ;;;
  (if negb (dict_contains spec "redis_host"%string)
   then logger_warning
          "Warning: No redis address provided, starting local redis server." []
   else ret tt) ;;;
  on_ray (set_ray_inits (fun l => l ++
    [RayInit (get_or_None spec "redis_address")
             (get_or_None spec "num_cpus")
             (get_or_None spec "num_gpus")])).

(** [cls.remote(config, args...)]: the actor the class [cls] builds is
    added to the runtime; its handle is returned. *)
Definition cls_remote (cls : nat -> list pyval -> actor)
    (config : nat) (args : list pyval) : M X worker :=
  acs <- get_ray actors ;;
  on_ray (set_actors (fun l => l ++ [cls config args])) ;;;
  ret (length acs).

Fixpoint create_remote_workers_loop (cls : nat -> list pyval -> actor)
    (agent_config : nat) (args : list pyval)
    (range : list nat) (workers : list worker) : M X (list worker) :=
  match range with
  | [] => ret workers
  | i :: range' =>
      config <- deepcopy agent_config ;;
      worker <- cls_remote cls config args ;;
      on_self (set_worker_ids (fun d => dict_set d worker (format_worker i))) ;;;
      create_remote_workers_loop cls agent_config args range' (workers ++ [worker])
  end.

Definition create_remote_workers (cls : nat -> list pyval -> actor)
    (num_actors : Z) (agent_config : nat) (args : list pyval)
    : M X (list worker) :=
  create_remote_workers_loop cls agent_config args
    (seq 0 (Z.to_nat num_actors)) [].

(** [setup_execution] and [_execute_step] of the abstract class; [init_tasks]
    is [pass]. *)
Definition setup_execution : M X unit := raise NotImplementedError.
Definition init_tasks : M X unit := ret tt.
Definition _execute_step : M X (list Z) := raise NotImplementedError.

Definition sample_metrics : M X (option (list Q)) :=
  get_self env_sample_iteration_throughputs.

Definition update_metrics : M X (option (list Q)) :=
  get_self update_iteration_throughputs.

(** [for ray_worker in self.ray_env_sample_workers]: what the loop ranges
    over; a dict is iterated by its keys. *)
Definition iter_sample_workers : M X (list pykey) :=
  attr <- get_self ray_env_sample_workers ;;
  match attr with
  | AttrNone => raise TypeError
  | AttrList ws => ret (map KWorker ws)
  | AttrDict d => ret (dict_keys d)
  end.

(** [len(self.ray_env_sample_workers)] *)
Definition len_sample_workers : M X nat :=
  attr <- get_self ray_env_sample_workers ;;
  match attr with
  | AttrNone => raise TypeError
  | AttrList ws => ret (length ws)
  | AttrDict d => ret (length d)
  end.

(** [self.worker_ids[ray_worker]]: the keys of [worker_ids] are handles. *)
Definition worker_ids_getitem (k : pykey) : M X string :=
  ids <- get_self worker_ids ;;
  match k with
  | KStr _ => raise KeyError
  | KWorker w =>
      match dict_get ids w with
      | Some label => ret label
      | None => raise KeyError
      end
  end.

(** [ray.get(ray_worker.get_workload_statistics.remote())]; a string has no
    such attribute. *)
Definition fetch_workload_statistics (k : pykey) : M X metrics :=
  match k with
  | KStr _ => raise AttributeError
  | KWorker w =>
      task <- remote w get_workload_statistics ;;
      a <- ray_get_actor w ;;
      ret (workload_statistics a)
  end.

(** The local accumulators of [get_aggregate_worker_results]. *)
Record accumulators := Acc {
  min_rewards : list Q;
  max_rewards : list Q;
  mean_rewards : list Q;
  final_rewards : list Q;
  worker_op_throughputs : list Q;
  worker_env_frame_throughputs : list Q;
  acc_episodes_executed : Z;
  acc_steps_executed : Z
}.

Definition accumulate (acc : accumulators) (m : metrics) : accumulators :=
  Acc (min_rewards acc ++ [min_episode_reward m])
      (max_rewards acc ++ [max_episode_reward m])
      (mean_rewards acc ++ [mean_episode_reward m])
      (final_rewards acc ++ [final_episode_reward m])
      (worker_op_throughputs acc ++ [mean_worker_ops_per_second m])
      (worker_env_frame_throughputs acc ++ [mean_worker_env_frames_per_second m])
      (acc_episodes_executed acc + episodes_executed m)
      (acc_steps_executed acc + worker_steps m).

Fixpoint aggregate_loop (keys : list pykey) (acc : accumulators)
    : M X accumulators :=
  match keys with
  | [] => ret acc
  | ray_worker :: keys' =>
      label <- worker_ids_getitem ray_worker ;;
      logger_info "Retrieving workload statistics for worker: {}" [PStr label] ;;;
      metrics <- fetch_workload_statistics ray_worker ;;
      aggregate_loop keys' (accumulate acc metrics)
  end.

Definition get_aggregate_worker_results : M X WorkerStats.t :=
  keys <- iter_sample_workers ;;
  acc <- aggregate_loop keys (Acc [] [] [] [] [] [] 0 0) ;;
  min_reward <- lift (np_min (min_rewards acc)) ;;
  max_reward <- lift (np_max (max_rewards acc)) ;;
  min_tp <- lift (np_min (worker_op_throughputs acc)) ;;
  max_tp <- lift (np_max (worker_op_throughputs acc)) ;;
  ret (WorkerStats.Make
         min_reward
         max_reward
         (np_mean (mean_rewards acc))
         (np_mean (final_rewards acc))
         (acc_episodes_executed acc)
         (acc_steps_executed acc)
         (np_mean (worker_op_throughputs acc))
         min_tp
         max_tp
         (np_mean (worker_env_frame_throughputs acc))).

(** [result_by_worker(worker_id)]: the attribute is read as a dict. *)
Definition result_by_worker (worker_id : option pykey)
    : M X (list Q * list Z) :=
  attr <- get_self ray_env_sample_workers ;;
  ray_worker <-
    match worker_id with
    | Some k =>
        match attr with
        | AttrDict d =>
            if dict_contains d k then
              match dict_get d k with
              | Some w => ret w
              | None => raise KeyError
              end
            else raise AssertionError
        | _ => raise AttributeError
        end
    | None =>
        match attr with
        | AttrDict d => list_getitem (dict_values d) 0%nat
        | _ => raise AttributeError
        end
    end ;;
  task <- remote ray_worker get_workload_statistics ;;
  a <- ray_get_actor ray_worker ;;
  let metrics := workload_statistics a in
  ret (episode_rewards metrics, episode_timesteps metrics).

(** [get_sample_worker_ids]: [list(self.worker_ids.keys())] *)
Definition get_sample_worker_ids : M X (list pykey) :=
  ids <- get_self worker_ids ;;
  ret (map KWorker (dict_keys ids)).

(** [build_agent_from_config(agent_config)], a static method. The registry
    [Agent.__lookup_classes__] of [yarl.agents] is the parameter
    [lookup_classes]: a constructor takes the keyword arguments and gives an
    agent or raises. A type that is no registered name gives [None], and
    calling [None] raises [TypeError]; so does an unhashable type. *)
Definition build_agent_from_config {A : Type}
    (lookup_classes : list (string * (list (string * pyval) -> outcome A)))
    (agent_config : nat) : M X A :=
  config <- deepcopy agent_config ;;
  h <- get_ray heap ;;
  match h !! config with
  | Some (PDict items) =>
      match dict_get items "type"%string with
      | None => raise KeyError
      | Some type =>
          on_ray (set_heap (fun h =>
            <[config := PDict (dict_remove items "type"%string)]> h)) ;;;
          match type with
          | PStr name =>
              match dict_get lookup_classes name with
              | Some agent_cls => lift (agent_cls (dict_remove items "type"%string))
              | None => raise TypeError
              end
          | _ => raise TypeError
          end
      end
  | _ => raise AttributeError
  end.

(** [build_env_from_config(env_spec)], a static method; [env_spec] is only
    read. The registry [Environment.__lookup_classes__] is the parameter
    [lookup_classes]; a dict as type is unhashable and [get] raises
    [TypeError]. The argument [env_spec['gym_env']] is evaluated before the
    call. *)
Definition build_env_from_config {E : Type}
    (lookup_classes : list (string * (pyval -> outcome E)))
    (env_spec : list (string * pyval)) : outcome E :=
  match dict_get env_spec "type"%string with
  | None => Raise KeyError
  | Some (PDict _) => Raise TypeError
  | Some type =>
      let env_cls :=
        match type with
        | PStr name => dict_get lookup_classes name
        | _ => None
        end in
      match dict_get env_spec "gym_env"%string with
      | None => Raise KeyError
      | Some gym_env =>
          match env_cls with
          | Some cls => cls gym_env
          | None => Raise TypeError
          end
      end
  end.

End Methods.

(** [execute_workload] calls [self.init_tasks()] and [self._execute_step()],
    which the concrete class provides: they are the parameters
    [self_init_tasks] and [self_execute_step].  [fuel] bounds the number of
    passes through each [while] loop. *)
Section Workload.
Context {X : Type}.
Variable self_init_tasks : M X unit.
Variable self_execute_step : M X (list Z).

(** [self.env_sample_iteration_throughputs.append(x)] and its sibling *)
Definition append_env_sample_throughput (x : Q) : M X unit :=
  cur <- get_self env_sample_iteration_throughputs ;;
  match cur with
  | Some l => on_self (set_env_sample_iteration_throughputs (Some (l ++ [x])))
  | None => raise AttributeError
  end.

Definition append_update_throughput (x : Q) : M X unit :=
  cur <- get_self update_iteration_throughputs ;;
  match cur with
  | Some l => on_self (set_update_iteration_throughputs (Some (l ++ [x])))
  | None => raise AttributeError
  end.

(** [while iteration_step < report_interval: ...] *)
Fixpoint report_loop (fuel : nat) (report_interval : Z)
    (iteration_step iteration_updates : Z) : M X (Z * Z) :=
  if iteration_step <? report_interval then
    match fuel with
    | O => out_of_fuel
    | S fuel' =>
        step <- self_execute_step ;;
        unpacked <- lift (unpack2 step) ;;
        let '(worker_steps_executed, update_steps) := unpacked in
        report_loop fuel' report_interval
          (iteration_step + worker_steps_executed)
          (iteration_updates + update_steps)
    end
  else ret (iteration_step, iteration_updates).

(** The raw values of the iterations done so far. *)
Record iterations := Iterations {
  timesteps_executed : Z;
  iteration_times : list Q;
  iteration_time_steps : list Z;
  iteration_update_steps : list Z
}.

(** [while timesteps_executed < num_timesteps: ...] *)
Fixpoint workload_loop (fuel : nat) (num_timesteps report_interval : Z)
    (its : iterations) : M X iterations :=
  if timesteps_executed its <? num_timesteps then
    match fuel with
    | O => out_of_fuel
    | S fuel' =>
        iteration_start <- monotonic ;;
        counts <- report_loop fuel' report_interval 0 0 ;;
        let '(iteration_step, iteration_updates) := counts in
        now <- monotonic ;;
        let iteration_end := (now - iteration_start)%Q in
        let timesteps_executed' := timesteps_executed its + iteration_step in
        percent <- truediv (inject_Z (100 * timesteps_executed'))
                           (inject_Z num_timesteps) ;;
        logger_info
          "Executed {} Ray worker steps, {} update steps, ({} of {} ({} %))"
          [PInt iteration_step; PInt iteration_updates;
           PInt timesteps_executed'; PInt num_timesteps; PFloat percent] ;;;
        workload_loop fuel' num_timesteps report_interval
          (Iterations timesteps_executed'
             (iteration_times its ++ [iteration_end])
             (iteration_time_steps its ++ [iteration_step])
             (iteration_update_steps its ++ [iteration_updates]))
    end
  else ret its.

(** [for i in range_(len(iteration_times)): ...] *)
Definition throughputs_loop (its : iterations) : M X unit :=
  for_each (seq 0 (length (iteration_times its))) (fun i =>
    it_time <- list_getitem (iteration_times its) i ;;
    steps <- list_getitem (iteration_time_steps its) i ;;
    sample_throughput <- truediv (inject_Z steps) it_time ;;
    append_env_sample_throughput sample_throughput ;;;
    updates <- list_getitem (iteration_update_steps its) i ;;
    update_throughput <- truediv (inject_Z updates) it_time ;;
    append_update_throughput update_throughput).

(** [workload['num_timesteps']] *)
Definition workload_getitem (workload : gmap string Z) (k : string) : M X Z :=
  match workload !! k with
  | Some v => ret v
  | None => raise KeyError
  end.

(** [np.min], [np.max], [np.mean] of an attribute holding a list *)
Definition np_min_attr (a : option (list Q)) : M X Q :=
  match a with Some l => lift (np_min l) | None => raise TypeError end.
Definition np_max_attr (a : option (list Q)) : M X Q :=
  match a with Some l => lift (np_max l) | None => raise TypeError end.
Definition np_mean_attr (a : option (list Q)) : M X Q :=
  match a with Some l => ret (np_mean l) | None => raise TypeError end.

Definition execute_workload (fuel : nat) (workload : gmap string Z)
    : M X WorkloadResult.t :=
  on_self (set_env_sample_iteration_throughputs (Some [])) ;;;
  on_self (set_update_iteration_throughputs (Some [])) ;;;
  self_init_tasks ;;;
  on_self (set_env_sample_iteration_throughputs (Some [])) ;;;
  on_self (set_update_iteration_throughputs (Some [])) ;;;
  num_timesteps <- workload_getitem workload "num_timesteps" ;;
  report_interval <- workload_getitem workload "report_interval" ;;
  start <- monotonic ;;
  its <- workload_loop fuel num_timesteps report_interval
           (Iterations 0 [] [] []) ;;
  finish <- monotonic ;;
  let total_time :=
    if Qeq_bool (finish - start) 0 then (1 # 10000000000)%Q
    else (finish - start)%Q in
  ops <- truediv (inject_Z (timesteps_executed its)) total_time ;;
  logger_info "Time steps executed: {} ({} ops/s)"
    [PInt (timesteps_executed its); PFloat ops] ;;;
  let all_updates := np_sum (iteration_update_steps its) in
  ups <- truediv (inject_Z all_updates) total_time ;;
  logger_info "Updates executed: {}, ({} updates/s)"
    [PInt all_updates; PFloat ups] ;;;
  throughputs_loop its ;;;
  worker_stats <- get_aggregate_worker_results ;;
  n <- len_sample_workers ;;
  logger_info "Retrieved worker stats for {} workers:" [PInt (Z.of_nat n)] ;;;
  logger_info "{}" [WorkerStats.to_dict worker_stats] ;;;
  ops_per_second <- truediv (inject_Z (timesteps_executed its)) total_time ;;
  samples <- get_self env_sample_iteration_throughputs ;;
  updates <- get_self update_iteration_throughputs ;;
  min_sample <- np_min_attr samples ;;
  max_sample <- np_max_attr samples ;;
  mean_sample <- np_mean_attr samples ;;
  min_update <- np_min_attr updates ;;
  max_update <- np_max_attr updates ;;
  mean_update <- np_mean_attr updates ;;
  ret (WorkloadResult.Make
         total_time
         (timesteps_executed its)
         ops_per_second
         min_sample max_sample mean_sample
         min_update max_update mean_update
         (WorkerStats.mean_worker_op_throughput worker_stats)
         (WorkerStats.max_worker_op_throughput worker_stats)
         (WorkerStats.min_worker_op_throughput worker_stats)
         (WorkerStats.mean_reward worker_stats)
         (WorkerStats.max_reward worker_stats)
         (WorkerStats.min_reward worker_stats)
         (WorkerStats.mean_final_reward worker_stats)).

End Workload.
End RayExecutor.

(** ** The task pool *)

Module RayTaskPool.

(** Modelled from the spec: the class [RayTaskPool] of
    [rlgraph/execution/ray/ray_util.py], which the executor imports, is not
    among the sources.  The pool is the table of outstanding operations in
    submission order, each with the worker it was issued to; a completed
    sampling task is delivered with its payload, the pair of the sample
    batch reference and the sample count reference, both named by the
    future. *)
Definition t := list (worker * nat).

(** Modelled from the spec: a new pool tracks no operation. *)
Definition empty : t := [].

(** Modelled from the spec: whether the worker has an outstanding task, which
    is what the re-entrancy check of [add_task] tests. *)
Definition outstanding (pool : t) (w : worker) : bool :=
  bool_decide (w ∈ pool.*1).

(** Modelled from the spec: [add_task(worker, operation_future)] registers
    a new outstanding operation and fails with [DuplicateTaskError] when the
    worker already has one. *)
Definition add_task (pool : t) (w : worker) (future : nat) : outcome t :=
  if outstanding pool w then Raise DuplicateTaskError
  else Ret (pool ++ [(w, future)]).

(** Modelled from the spec: [get_completed()] yields all operations that are
    finished when the wait returns, and they are outstanding no more.
    [finished] is the runtime's answer at that moment (the wait itself is
    not modelled); the spec leaves the order of delivery open, here it is
    the order of submission. *)
Definition get_completed (finished : nat -> bool) (pool : t)
    : list (worker * (nat * nat)) * t :=
  ((fun task => (fst task, (snd task, snd task)))
     <$> filter (fun task => finished (snd task) = true) pool,
   filter (fun task => finished (snd task) <> true) pool).

End RayTaskPool.

(** ** [class SyncBatchExecutor(RayExecutor)] *)

Module SyncBatchExecutor.

(** The attribute the subclass adds that its methods below use. *)
Record attrs := Attrs {
  env_sample_tasks : RayTaskPool.t
}.

Definition state := world attrs.

(** [self.env_sample_tasks.get_completed()], forced by [list(...)] *)
Definition env_sample_tasks_get_completed
    : M attrs (list (worker * (nat * nat))) :=
  k <- get_ray waits ;;
  finished <- get_ray (fun r => task_done r k) ;;
  on_ray (set_waits (S k)) ;;;
  pool <- get_sub env_sample_tasks ;;
  let '(completed, pool') := RayTaskPool.get_completed finished pool in
  on_sub (fun _ => Attrs pool') ;;;
  ret completed.

(** [self.env_sample_tasks.add_task(worker, future)] *)
Definition env_sample_tasks_add_task (w : worker) (future : nat)
    : M attrs unit :=
  pool <- get_sub env_sample_tasks ;;
  pool' <- lift (RayTaskPool.add_task pool w future) ;;
  on_sub (fun _ => Attrs pool').

(** [ray.get(refs)] for a list of sample count references *)
Definition ray_get_counts (refs : list nat) : M attrs (list Z) :=
  count <- get_ray task_count ;;
  ret (count <$> refs).

(** The body of the loop of [test_worker_init]. *)
Definition test_worker (ray_worker : pykey) : M attrs unit :=
  label <- RayExecutor.worker_ids_getitem ray_worker ;;
  logger_info "Testing worker for successful init: {}" [PStr label] ;;;
  result <-
    match ray_worker with
    | KStr _ => raise AttributeError
    | KWorker w =>
        task <- remote w get_constructor_success ;;
        a <- ray_get_actor w ;;
        ret (constructor_success a)
    end ;;
  if is_True result then ret tt else raise AssertionError.

Definition test_worker_init : M attrs unit :=
  keys <- RayExecutor.iter_sample_workers ;;
  for_each keys test_worker.

(** [for i, (ray_worker, (env_sample_obj_id, sample_size)) in
     enumerate(completed_sample_tasks): ...] *)
Fixpoint step_loop (i : nat) (tasks : list (worker * (nat * nat)))
    (sample_batch_sizes : list Z) (env_steps : Z) : M attrs Z :=
  match tasks with
  | [] => ret env_steps
  | (ray_worker, (env_sample_obj_id, sample_size)) :: tasks' =>
      sample_steps <- list_getitem sample_batch_sizes i ;;
      let env_steps := env_steps + sample_steps in
      future <- remote ray_worker execute_and_get_with_count ;;
      env_sample_tasks_add_task ray_worker future ;;;
      step_loop (S i) tasks' sample_batch_sizes env_steps
  end.

Definition _execute_step : M attrs (list Z) :=
  let env_steps := 0 in
  let update_steps := 0 in
  completed_sample_tasks <- env_sample_tasks_get_completed ;;
  sample_batch_sizes <-
    ray_get_counts ((fun task => snd (snd task)) <$> completed_sample_tasks) ;;
  env_steps <- step_loop 0 completed_sample_tasks sample_batch_sizes env_steps ;;
  ret [env_steps; update_steps; 0; 0].

End SyncBatchExecutor.

(** ** Concrete clusters used in the examples below *)

Module Fixtures.

(** A worker that has run four episodes with the given mean reward. *)
Definition stats_with_mean (mean : Q) : metrics :=
  Metrics 0%Q (2 * mean)%Q mean mean 4 100 50%Q 200%Q
          [0%Q; (2 * mean)%Q; mean; mean] [25; 25; 25; 25].

(** An actor class whose constructor succeeds. *)
Definition value_worker (config : nat) (args : list pyval) : actor :=
  Actor config args (PBool true) (stats_with_mean 1).

(** An actor class whose workers differ: the mean reward of a worker is
    the address of its config object. *)
Definition graded_worker (config : nat) (args : list pyval) : actor :=
  Actor config args (PBool true) (stats_with_mean (inject_Z (Z.of_nat config))).

(** An actor class whose constructor fails silently for the worker that
    gets the config object at address 2. *)
Definition flaky_worker (config : nat) (args : list pyval) : actor :=
  Actor config args (PBool (negb (config =? 2)%nat)) (stats_with_mean 1).

(** A runtime before any actor exists: one config object at address 0,
    every sampling task is finished when waited for and reports 25 samples. *)
Definition runtime0 (clock : nat -> Q) : ray_runtime :=
  Runtime [PDict [("type"%string, PStr "dqn")]] [] [] [] 0
          (fun _ _ => true) (fun _ => 25) clock 0.

(** A clock that advances by one second between two readings, and one that
    does not advance at all. *)
Definition ticking_clock (i : nat) : Q := inject_Z (Z.of_nat i).
Definition frozen_clock (i : nat) : Q := 0%Q.

(** A cluster of [n] workers of class [cls], registered as
    [setup_execution] does, line 84. *)
Definition cluster {X} (cls : nat -> list pyval -> actor) (n : Z)
    (clock : nat -> Q) (x : X) : world X :=
  let w0 := World (RayExecutor.__init__ []) (runtime0 clock) x in
  match RayExecutor.create_remote_workers cls n 0%nat [] w0 with
  | (Ret workers, w1) =>
      World (set_ray_env_sample_workers (AttrList workers) (self w1))
            (ray w1) (sub w1)
  | (_, w1) => w1
  end.



(** A step double for a pool of four workers that report 25 samples each:
    every call gives 100 environment steps and no update step, and counts
    itself in the subclass state. *)
Definition counting_step : M nat (list Z) :=
  on_sub S ;;; ret [4 * 25; 0].

(** A step double for a single worker that reports 25 samples per task. *)
Definition single_worker_step : M nat (list Z) :=
  on_sub S ;;; ret [25; 0].

(** A step double that makes no progress. *)
Definition idle_step : M nat (list Z) :=
  on_sub S ;;; ret [0; 0].

Definition workload (num_timesteps report_interval : Z) : gmap string Z :=
  {[ "num_timesteps"%string := num_timesteps;
     "report_interval"%string := report_interval ]}.

End Fixtures.

(** ** Vocabulary of the statements *)

(** The log lines of level [WARNING], and the one [ray_init] may add. *)
Definition warnings (e : executor) : list log_record :=
  filter (fun r => lvl r = WARNING) (logger e).

Definition the_redis_warning : log_record :=
  LogRecord WARNING
    "Warning: No redis address provided, starting local redis server." [].

(** The sum of a list of integers. *)
Definition total (l : list Z) : Z := foldr Z.add 0 l.




(** A computation that gives an answer (a value or an exception) from every
    world. *)
Definition terminates {X A} (c : M X A) : Prop :=
  forall w, fst (c w) <> OutOfFuel.

(** The least and the greatest element of a list of floats. *)
Definition is_minimum (m : Q) (l : list Q) : Prop :=
  m ∈ l /\ forall y, y ∈ l -> (m <= y)%Q.

Definition is_maximum (m : Q) (l : list Q) : Prop :=
  m ∈ l /\ forall y, y ∈ l -> (y <= m)%Q.

(** [w'] is [w] but for the log and the submitted remote calls. *)
Definition differs_in_log_and_calls {X} (w w' : world X) : Prop :=
  w' = World (set_logger (fun _ => logger (self w')) (self w))
             (set_submitted (fun _ => submitted (ray w')) (ray w))
             (sub w).

(** A computation that changes nothing but the log and the submitted calls,
    whatever its outcome. *)
Definition only_logs_and_calls {X A} (c : M X A) : Prop :=
  forall w, differs_in_log_and_calls w (snd (c w)).

(** The log line of [get_aggregate_worker_results] for a worker label. *)
Definition retrieving_line (label : string) : log_record :=
  LogRecord INFO "Retrieving workload statistics for worker: {}" [PStr label].

(** The log lines of [ray_init]: the header and the line of a spec entry. *)
Definition cluster_spec_header : log_record :=
  LogRecord INFO "Initializing Ray cluster with cluster spec:" [].

Definition cluster_spec_line (kv : string * pyval) : log_record :=
  LogRecord INFO "{}: {}" [PStr (fst kv); snd kv].

(** The executor with both throughput lists reset to the empty list, as at
    the start of [execute_workload]. *)
Definition reset_throughputs {X} (w : world X) : world X :=
  World (set_update_iteration_throughputs (Some [])
           (set_env_sample_iteration_throughputs (Some []) (self w)))
        (ray w) (sub w).

(** A computation that leaves both throughput lists as they are, whatever its
    outcome. *)
Definition keeps_throughputs {X A} (c : M X A) : Prop :=
  forall w,
    env_sample_iteration_throughputs (self (snd (c w)))
    = env_sample_iteration_throughputs (self w)
    /\ update_iteration_throughputs (self (snd (c w)))
       = update_iteration_throughputs (self w).

(** Steps (or updates) per second of an iteration. *)
Definition throughput_of (count : Z) (seconds : Q) : Q :=
  (inject_Z count / seconds)%Q.

(** The executor with the given throughput lists. *)
Definition with_throughputs {X} (samples updates : list Q) (w : world X) : world X :=
  World (set_update_iteration_throughputs (Some updates)
           (set_env_sample_iteration_throughputs (Some samples) (self w)))
        (ray w) (sub w).

(** * Properties *)

(** ** Running the monad *)

Lemma bind_Ret {X A B} (c : M X A) (k : A -> M X B) w a w' :
  c w = (Ret a, w') -> bind c k w = k a w'.
Proof. intros H. unfold bind. now rewrite H. Qed.

Lemma bind_Raise {X A B} (c : M X A) (k : A -> M X B) w e w' :
  c w = (Raise e, w') -> bind c k w = (Raise e, w').
Proof. intros H. unfold bind. now rewrite H. Qed.

Lemma bind_OutOfFuel {X A B} (c : M X A) (k : A -> M X B) w w' :
  c w = (OutOfFuel, w') -> bind c k w = (OutOfFuel, w').
Proof. intros H. unfold bind. now rewrite H. Qed.

(** Logging the items of the cluster spec only adds [INFO] lines. *)
Lemma log_items_spec {X} (spec : list (string * pyval)) (w : world X) :
  exists lines,
    for_each spec (fun kv => logger_info "{}: {}" [PStr (fst kv); snd kv]) w
    = (Ret tt, World (set_logger (fun l => l ++ lines) (self w)) (ray w) (sub w))
    /\ Forall (fun r => lvl r = INFO) lines.
Proof.
  revert w. induction spec as [|kv spec IH]; intros w.
  - exists []. split; [|constructor].
    destruct w as [[] r s]. cbn. unfold set_logger; cbn. now rewrite app_nil_r.
  - cbn [for_each].
    destruct (IH (World (set_logger (fun l => l ++ [LogRecord INFO "{}: {}" [PStr (fst kv); snd kv]]) (self w)) (ray w) (sub w)))
      as (lines & Hrun & Hinfo).
    exists (LogRecord INFO "{}: {}" [PStr (fst kv); snd kv] :: lines). split.
    + erewrite bind_Ret by reflexivity. rewrite Hrun.
      destruct w as [[] r s]. cbn. unfold set_logger; cbn.
      now rewrite <- app_assoc.
    + constructor; [reflexivity | assumption].
Qed.

Lemma filter_all_INFO (lines : list log_record) :
  Forall (fun r => lvl r = INFO) lines ->
  filter (fun r => lvl r = WARNING) lines = [].
Proof.
  induction 1 as [|r lines Hr _ IH]; [reflexivity|].
  rewrite filter_cons. destruct (decide (lvl r = WARNING)) as [E|]; [congruence | exact IH].
Qed.

(** What [ray_init] does on any executor: it returns, the warning is logged
    exactly when the spec has no key [redis_host], and [ray.init] gets the
    values under [redis_address], [num_cpus] and [num_gpus]. *)
Lemma ray_init_spec {X} (w : world X) :
  let spec := cluster_spec (self w) in
  exists w',
    RayExecutor.ray_init w = (Ret tt, w')
    /\ warnings (self w') =
       warnings (self w)
       ++ (if dict_contains spec "redis_host"%string then [] else [the_redis_warning])
    /\ ray_inits (ray w') =
       ray_inits (ray w)
       ++ [RayInit (get_or_None spec "redis_address")
                   (get_or_None spec "num_cpus")
                   (get_or_None spec "num_gpus")].
Proof.
  intros spec. unfold RayExecutor.ray_init.
  erewrite bind_Ret by reflexivity.
  erewrite bind_Ret by reflexivity.
  match goal with |- context [for_each ?s ?b] =>
    destruct (log_items_spec s (World (set_logger (fun l => l ++ [LogRecord INFO "Initializing Ray cluster with cluster spec:" []]) (self w)) (ray w) (sub w)))
      as (lines & Hrun & Hinfo)
  end.
  destruct w as [[cs sw ids es us lg] r s]. cbn in *. subst spec. cbn.
  erewrite bind_Ret by exact Hrun.
  destruct (dict_contains cs "redis_host"%string) eqn:Hhost; cbn.
  - eexists. split; [reflexivity|]. cbn. split; [|reflexivity].
    unfold warnings; cbn. rewrite !filter_app, (filter_all_INFO lines Hinfo).
    cbn. now rewrite !app_nil_r.
  - eexists. split; [reflexivity|]. cbn. split; [|reflexivity].
    unfold warnings; cbn. rewrite !filter_app, (filter_all_INFO lines Hinfo).
    cbn. now rewrite !app_nil_r.
Qed.

Lemma bind_inv_Ret {X A B} (c : M X A) (k : A -> M X B) w b w' :
  bind c k w = (Ret b, w') ->
  exists a w1, c w = (Ret a, w1) /\ k a w1 = (Ret b, w').
Proof.
  unfold bind. destruct (c w) as [[a|e|] w1]; intros H; try discriminate.
  now exists a, w1.
Qed.

(** ** [ray_init] *)

(** C7 (the code departs from the claim). The claim: the local-coordinator
    warning is logged exactly when the cluster spec has no key
    [redis_address]. The code tests the key [redis_host] instead: with a spec
    that gives [redis_address] only, the warning is logged all the same, and
    the address is passed on to [ray.init]; with a spec that gives [redis_host]
    only, no warning is logged although [ray.init] gets no address. *)
Theorem ray_init_warning_keyed_on_redis_host :
  (let w := World (RayExecutor.__init__ [("redis_address"%string, PStr "10.0.0.1:6379")])
                  (Fixtures.runtime0 Fixtures.ticking_clock) tt in
   exists w',
     RayExecutor.ray_init w = (Ret tt, w')
     /\ warnings (self w') = [the_redis_warning]
     /\ ray_inits (ray w') = [RayInit (PStr "10.0.0.1:6379") PNone PNone])
  /\
  (let w := World (RayExecutor.__init__ [("redis_host"%string, PStr "10.0.0.1")])
                  (Fixtures.runtime0 Fixtures.ticking_clock) tt in
   exists w',
     RayExecutor.ray_init w = (Ret tt, w')
     /\ warnings (self w') = []
     /\ ray_inits (ray w') = [RayInit PNone PNone PNone]).
Proof.
  split; cbv zeta.
  - destruct (ray_init_spec
        (World (RayExecutor.__init__ [("redis_address"%string, PStr "10.0.0.1:6379")])
               (Fixtures.runtime0 Fixtures.ticking_clock) tt)) as (w' & Hrun & Hwarn & Hinit).
    exists w'. split; [exact Hrun|]. split; [exact Hwarn | exact Hinit].
  - destruct (ray_init_spec
        (World (RayExecutor.__init__ [("redis_host"%string, PStr "10.0.0.1")])
               (Fixtures.runtime0 Fixtures.ticking_clock) tt)) as (w' & Hrun & Hwarn & Hinit).
    exists w'. split; [exact Hrun|]. split; [exact Hwarn | exact Hinit].
Qed.

(** ** [get_sample_worker_ids] and [result_by_worker] *)

(** C9 (the code departs from the claim and from its own docstring). On a
    cluster of two workers set up as [setup_execution] does,
    [get_sample_worker_ids] returns the two worker handles, not the labels
    [worker_0] and [worker_1]; and [result_by_worker] raises [AttributeError]
    for each of these identifiers, and for the labels too, since it reads the
    worker list as a dict. *)
Theorem get_sample_worker_ids_returns_handles :
  let w : world unit :=
    Fixtures.cluster Fixtures.value_worker 2 Fixtures.ticking_clock tt in
  worker_ids (self w) = [(0%nat, "worker_0"%string); (1%nat, "worker_1"%string)]
  /\ ray_env_sample_workers (self w) = AttrList [0%nat; 1%nat]
  /\ fst (RayExecutor.get_sample_worker_ids w) = Ret [KWorker 0%nat; KWorker 1%nat]
  /\ fst (RayExecutor.result_by_worker (Some (KWorker 0%nat)) w) = Raise AttributeError
  /\ fst (RayExecutor.result_by_worker (Some (KWorker 1%nat)) w) = Raise AttributeError
  /\ fst (RayExecutor.result_by_worker (Some (KStr "worker_0")) w) = Raise AttributeError
  /\ fst (RayExecutor.result_by_worker None w) = Raise AttributeError.
Proof. cbv zeta. repeat split; vm_compute; reflexivity. Qed.

(** ** One step of the synchronous-batch executor *)




(** ** The step primitive inside [execute_workload] *)




Lemma workload_num_timesteps (a b : Z) :
  Fixtures.workload a b !! "num_timesteps"%string = Some a.
Proof. unfold Fixtures.workload. apply lookup_insert_eq. Qed.

Lemma workload_report_interval (a b : Z) :
  Fixtures.workload a b !! "report_interval"%string = Some b.
Proof.
  unfold Fixtures.workload. rewrite lookup_insert_ne by discriminate.
  apply lookup_singleton_eq.
Qed.



(** ** Code without [while] loops always gives an answer *)

Lemma terminates_bind {X A B} (c : M X A) (k : A -> M X B) :
  terminates c -> (forall a, terminates (k a)) -> terminates (bind c k).
Proof.
  intros Hc Hk w. unfold bind. specialize (Hc w).
  destruct (c w) as [[a|e|] w']; cbn in *; [apply Hk | discriminate | congruence].
Qed.

Lemma terminates_for_each {X A} (l : list A) (body : A -> M X unit) :
  (forall x, terminates (body x)) -> terminates (for_each l body).
Proof.
  intros Hbody. induction l as [|x l IH]; cbn [for_each].
  - intros w; cbn; discriminate.
  - apply terminates_bind; [apply Hbody | intros _; exact IH].
Qed.

Ltac terminates_step :=
  first
    [ apply terminates_bind; [|intros ?]
    | apply terminates_for_each; intros ?
    | match goal with
      | |- terminates (match ?x with _ => _ end) => destruct x
      end
    | solve [intros ?; cbn; discriminate]
    | solve [intros ?; cbn;
             repeat match goal with
                    | |- context [match ?x with _ => _ end] => destruct x; cbn
                    end; discriminate]
    | progress unfold logger_info, logger_warning, monotonic, truediv,
        list_getitem, remote, ray_get_actor, deepcopy, lift ].

Ltac terminates_tac := repeat terminates_step.

Lemma terminates_aggregate_loop {X} keys acc :
  terminates (X := X) (RayExecutor.aggregate_loop keys acc).
Proof.
  revert acc. induction keys as [|k keys IH]; intros acc;
    cbn [RayExecutor.aggregate_loop].
  - terminates_tac.
  - unfold RayExecutor.worker_ids_getitem, RayExecutor.fetch_workload_statistics.
    terminates_tac. apply IH.
Qed.

Lemma terminates_get_aggregate_worker_results {X} :
  terminates (X := X) RayExecutor.get_aggregate_worker_results.
Proof.
  unfold RayExecutor.get_aggregate_worker_results, RayExecutor.iter_sample_workers.
  apply terminates_bind; [terminates_tac|]. intros keys.
  apply terminates_bind; [apply terminates_aggregate_loop|]. intros acc.
  unfold np_min, np_max. terminates_tac.
Qed.

Lemma terminates_throughputs_loop {X} its :
  terminates (X := X) (RayExecutor.throughputs_loop its).
Proof.
  unfold RayExecutor.throughputs_loop, RayExecutor.append_env_sample_throughput,
    RayExecutor.append_update_throughput.
  terminates_tac.
Qed.

(** ** The two loops of [execute_workload] *)

Lemma Qeq_bool_inject_Z_nonzero (z : Z) :
  z <> 0 -> Qeq_bool (inject_Z z) 0 = false.
Proof.
  intros Hz. destruct (Qeq_bool (inject_Z z) 0) eqn:E; [|reflexivity].
  apply Qeq_bool_eq in E. unfold Qeq in E. cbn in E. lia.
Qed.

Section Loops.
Context {X : Type}.
Variable step : M X (list Z).

(** The inner loop is left only with [report_interval] steps or more. *)
Lemma report_loop_exit fuel report_interval :
  forall iteration_step iteration_updates w steps updates w',
    RayExecutor.report_loop step fuel report_interval
      iteration_step iteration_updates w = (Ret (steps, updates), w') ->
    report_interval <= steps.
Proof.
  induction fuel as [|fuel IH]; intros iteration_step iteration_updates w steps updates w';
    cbn [RayExecutor.report_loop];
    destruct (Z.ltb_spec iteration_step report_interval) as [Hlt|Hge].
  - discriminate.
  - intros [= <- <- <-]. exact Hge.
  - intros H.
    apply bind_inv_Ret in H as (out & w1 & _ & H).
    apply bind_inv_Ret in H as ([worker_steps update_steps] & w2 & _ & H).
    eapply IH, H.
  - intros [= <- <- <-]. exact Hge.
Qed.


(** Progress: when every step gives a pair with a positive first
    component, both loops return within a budget given by their bounds. *)
Section Progress.
Hypothesis step_positive :
  forall w, exists n u w', step w = (Ret [n; u], w') /\ 0 < n.

Lemma report_loop_returns fuel report_interval :
  forall iteration_step iteration_updates w,
    (Z.to_nat (report_interval - iteration_step) < fuel)%nat ->
    exists steps updates w',
      RayExecutor.report_loop step fuel report_interval
        iteration_step iteration_updates w = (Ret (steps, updates), w').
Proof.
  induction fuel as [|fuel IH]; intros iteration_step iteration_updates w Hfuel;
    [lia|]. cbn [RayExecutor.report_loop].
  destruct (Z.ltb_spec iteration_step report_interval) as [Hlt|Hge].
  - destruct (step_positive w) as (n & u & w1 & Hstep & Hn).
    erewrite bind_Ret by exact Hstep.
    erewrite bind_Ret by reflexivity.
    apply IH. lia.
  - now eexists _, _, _.
Qed.

Lemma workload_loop_returns fuel num_timesteps report_interval :
  1 <= num_timesteps -> 1 <= report_interval ->
  forall its w,
    (Z.to_nat (num_timesteps - RayExecutor.timesteps_executed its)
     + Z.to_nat report_interval < fuel)%nat ->
    exists its' w',
      RayExecutor.workload_loop step fuel num_timesteps report_interval its w
      = (Ret its', w').
Proof.
  intros Hnt Hri.
  induction fuel as [|fuel IH]; intros its w Hfuel; [lia|].
  cbn [RayExecutor.workload_loop].
  destruct (Z.ltb_spec (RayExecutor.timesteps_executed its) num_timesteps) as [Hlt|Hge].
  - erewrite bind_Ret by reflexivity. cbv beta.
    match goal with
    | |- context [bind (RayExecutor.report_loop step fuel report_interval 0 0) _ ?w1] =>
      destruct (report_loop_returns fuel report_interval 0 0 w1)
        as (steps & updates & w2 & Hinner); [lia|]
    end.
    pose proof (report_loop_exit _ _ _ _ _ _ _ _ Hinner) as Hsteps.
    erewrite bind_Ret by exact Hinner. cbv iota beta.
    erewrite bind_Ret by reflexivity.
    unfold truediv at 1. rewrite Qeq_bool_inject_Z_nonzero by lia.
    erewrite bind_Ret by reflexivity.
    erewrite bind_Ret by reflexivity.
    apply IH. cbn. lia.
  - now eexists _, _.
Qed.
End Progress.

(** No progress: when every step gives zero environment steps, the inner
    loop exhausts every budget, and so does the outer one. *)
Section Stuck.
Hypothesis step_zero : forall w, exists u w', step w = (Ret [0; u], w').

Lemma report_loop_stuck fuel report_interval :
  0 < report_interval ->
  forall iteration_updates w,
    fst (RayExecutor.report_loop step fuel report_interval 0 iteration_updates w)
    = OutOfFuel.
Proof.
  intros Hri. induction fuel as [|fuel IH]; intros iteration_updates w;
    cbn [RayExecutor.report_loop];
    destruct (Z.ltb_spec 0 report_interval) as [_|Hge]; try lia.
  - reflexivity.
  - destruct (step_zero w) as (u & w1 & Hstep).
    erewrite bind_Ret by exact Hstep.
    erewrite bind_Ret by reflexivity.
    apply IH.
Qed.

Lemma workload_loop_stuck fuel num_timesteps report_interval w :
  0 < num_timesteps -> 0 < report_interval ->
  fst (RayExecutor.workload_loop step fuel num_timesteps report_interval
         (RayExecutor.Iterations 0 [] [] []) w)
  = OutOfFuel.
Proof.
  intros Hnt Hri. destruct fuel as [|fuel]; cbn [RayExecutor.workload_loop RayExecutor.timesteps_executed];
    destruct (Z.ltb_spec 0 num_timesteps) as [_|Hge]; try lia.
  - reflexivity.
  - erewrite bind_Ret by reflexivity. cbv beta.
    match goal with
    | |- context [bind (RayExecutor.report_loop step fuel report_interval 0 0) _ ?w1] =>
      pose proof (report_loop_stuck fuel report_interval Hri 0 w1) as Hinner;
      destruct (RayExecutor.report_loop step fuel report_interval 0 0 w1) as [o w2] eqn:E
    end.
    cbn in Hinner. subst o.
    erewrite bind_OutOfFuel by exact E. reflexivity.
Qed.
End Stuck.
End Loops.

Ltac terminates_workload :=
  repeat first
    [ apply terminates_throughputs_loop
    | apply terminates_get_aggregate_worker_results
    | progress unfold RayExecutor.len_sample_workers, RayExecutor.np_min_attr,
        RayExecutor.np_max_attr, RayExecutor.np_mean_attr, np_min, np_max
    | terminates_step ].

(** C10. With [num_timesteps] and [report_interval] at least one and a hook
    [init_tasks] that returns: if every call of the step gives a pair whose
    first component is positive, [execute_workload] gives an answer for every
    loop budget above [num_timesteps + report_interval]; if every call gives
    zero environment steps, the inner loop exhausts every budget, and so does
    [execute_workload]. *)
Theorem execute_workload_terminates_by_progress_only {X}
    (init : M X unit) (step : M X (list Z))
    (workload : gmap string Z) (num_timesteps report_interval : Z) :
  workload !! "num_timesteps"%string = Some num_timesteps ->
  workload !! "report_interval"%string = Some report_interval ->
  1 <= num_timesteps ->
  1 <= report_interval ->
  (forall w, exists w', init w = (Ret tt, w')) ->
  ((forall w, exists n u w', step w = (Ret [n; u], w') /\ 0 < n) ->
   forall fuel w,
     (Z.to_nat num_timesteps + Z.to_nat report_interval < fuel)%nat ->
     fst (RayExecutor.execute_workload init step fuel workload w) <> OutOfFuel)
  /\
  ((forall w, exists u w', step w = (Ret [0; u], w')) ->
   (forall fuel updates w,
      fst (RayExecutor.report_loop step fuel report_interval 0 updates w) = OutOfFuel)
   /\ (forall fuel w,
         fst (RayExecutor.execute_workload init step fuel workload w) = OutOfFuel)).
Proof.
  intros Hnt Hri Hnt1 Hri1 Hinit. split.
  - intros Hpos fuel w Hfuel.
    unfold RayExecutor.execute_workload.
    do 2 (erewrite bind_Ret by reflexivity). cbv beta.
    match goal with |- context [bind init _ ?w0] =>
      destruct (Hinit w0) as (w1 & Hrun)
    end.
    erewrite bind_Ret by exact Hrun.
    do 2 (erewrite bind_Ret by reflexivity).
    unfold RayExecutor.workload_getitem. rewrite Hnt, Hri.
    do 3 (erewrite bind_Ret by reflexivity). cbv beta.
    match goal with
    | |- context [bind (RayExecutor.workload_loop step fuel num_timesteps report_interval ?its) _ ?w2] =>
        destruct (workload_loop_returns step Hpos fuel num_timesteps report_interval
                    Hnt1 Hri1 its w2) as (its' & w3 & Hloop); [cbn; lia|]
    end.
    erewrite bind_Ret by exact Hloop. cbv beta.
    match goal with
    | |- fst (?c ?w) <> OutOfFuel => cut (terminates c); [intros Ht; apply Ht|]
    end.
    cbv zeta. terminates_workload.
  - intros Hzero. split.
    + intros fuel updates w. apply report_loop_stuck; [exact Hzero | lia].
    + intros fuel w.
      unfold RayExecutor.execute_workload.
      do 2 (erewrite bind_Ret by reflexivity). cbv beta.
      match goal with |- context [bind init _ ?w0] =>
        destruct (Hinit w0) as (w1 & Hrun)
      end.
      erewrite bind_Ret by exact Hrun.
      do 2 (erewrite bind_Ret by reflexivity).
      unfold RayExecutor.workload_getitem. rewrite Hnt, Hri.
      do 3 (erewrite bind_Ret by reflexivity). cbv beta.
      match goal with
      | |- context [bind (RayExecutor.workload_loop step fuel num_timesteps report_interval ?its) _ ?w2] =>
          pose proof (workload_loop_stuck step Hzero fuel num_timesteps report_interval w2
                        ltac:(lia) ltac:(lia)) as Hloop;
          destruct (RayExecutor.workload_loop step fuel num_timesteps report_interval its w2)
            as [o w3] eqn:E
      end.
      cbn in Hloop. subst o. erewrite bind_OutOfFuel by exact E. reflexivity.
Qed.

(** ** Runs of [execute_workload] on a step double *)

(** With the step double that makes no progress, the inner loop uses up
    whatever budget it is given. *)
Example idle_step_exhausts_report_loop (fuel : nat) (w : world nat) :
  fst (RayExecutor.report_loop Fixtures.idle_step fuel 100 0 0 w) = OutOfFuel.
Proof.
  apply report_loop_stuck; [|lia].
  intros w0. eexists _, _. reflexivity.
Qed.



(** The counter of the outer loop is updated at the end of an iteration: with
    [num_timesteps = 50], [report_interval = 100] and 25 steps per call, the
    run makes the four calls of its single iteration and returns
    [timesteps_executed = 100]. *)
Example execute_workload_checks_at_iteration_end (fuel : nat) :
  match RayExecutor.execute_workload RayExecutor.init_tasks
          Fixtures.single_worker_step (6 + fuel) (Fixtures.workload 50 100)
          (Fixtures.cluster Fixtures.value_worker 1 Fixtures.ticking_clock 0%nat)
  with
  | (Ret r, w') => WorkloadResult.timesteps_executed r = 100 /\ sub w' = 4%nat
  | _ => False
  end.
Proof. vm_compute. split; reflexivity. Qed.

(** C3 (the code departs from the claim). With the same step double on a
    clock that does not advance, the total run time is floored to [1e-10],
    as the log line of the overall rate shows, but the elapsed time of an
    iteration is not: the first per-iteration throughput divides by zero and
    [execute_workload] raises [ZeroDivisionError] before any throughput is
    recorded. *)
Theorem iteration_time_not_floored :
  forall fuel,
    match RayExecutor.execute_workload RayExecutor.init_tasks
            Fixtures.counting_step (12 + fuel) (Fixtures.workload 1000 100)
            (Fixtures.cluster Fixtures.value_worker 4 Fixtures.frozen_clock 0%nat)
    with
    | (Raise ZeroDivisionError, w') =>
        filter (fun r => fmt r = "Time steps executed: {} ({} ops/s)"%string)
               (logger (self w'))
        = [LogRecord INFO "Time steps executed: {} ({} ops/s)"
             [PInt 1000; PFloat (10000000000000 # 1)%Q]]
        /\ env_sample_iteration_throughputs (self w') = Some []
        /\ sub w' = 10%nat
    | _ => False
    end.
Proof. intros fuel. vm_compute. repeat split; reflexivity. Qed.

(** ** The theorems at concrete clusters *)


(** [execute_workload_terminates_by_progress_only] for the step double that
    gives 100 steps per call. *)
Lemma execute_workload_terminates_by_progress_only_witness :
  fst (RayExecutor.execute_workload RayExecutor.init_tasks
         Fixtures.counting_step 1101 (Fixtures.workload 1000 100)
         (Fixtures.cluster Fixtures.value_worker 4 Fixtures.ticking_clock 0%nat))
  <> OutOfFuel.
Proof.
  apply (proj1 (execute_workload_terminates_by_progress_only
                  RayExecutor.init_tasks Fixtures.counting_step
                  (Fixtures.workload 1000 100) 1000 100
                  (workload_num_timesteps 1000 100)
                  (workload_report_interval 1000 100)
                  ltac:(lia) ltac:(lia)
                  (fun w => ex_intro _ w eq_refl))).
  - intros w. eexists _, _, _. split; [reflexivity | lia].
  - cbn. lia.
Defined.


(** ** Aggregation of the worker statistics *)

Lemma Qmin_cases (x y : Q) : Qmin x y = x \/ Qmin x y = y.
Proof. unfold Qmin, GenericMinMax.gmin. destruct (x ?= y)%Q; auto. Qed.

Lemma Qmax_cases (x y : Q) : Qmax x y = x \/ Qmax x y = y.
Proof. unfold Qmax, GenericMinMax.gmax. destruct (x ?= y)%Q; auto. Qed.

Lemma fold_Qmin_is_minimum (xs : list Q) :
  forall x, is_minimum (fold_left Qmin xs x) (x :: xs).
Proof.
  induction xs as [|y xs IH]; intros x; cbn [fold_left].
  - split; [left|]. intros z Hz. apply list_elem_of_singleton in Hz. subst z.
    apply Qle_refl.
  - destruct (IH (Qmin x y)) as [Hin Hle]. split.
    + apply elem_of_cons in Hin as [Hin|Hin].
      * rewrite Hin. destruct (Qmin_cases x y) as [-> | ->];
          [left | right; left].
      * right; right; exact Hin.
    + intros z Hz.
      assert (Hm : (fold_left Qmin xs (Qmin x y) <= Qmin x y)%Q) by (apply Hle; left).
      apply elem_of_cons in Hz as [->|Hz].
      * eapply Qle_trans; [exact Hm | apply Q.le_min_l].
      * apply elem_of_cons in Hz as [->|Hz].
        -- eapply Qle_trans; [exact Hm | apply Q.le_min_r].
        -- apply Hle. right; exact Hz.
Qed.

Lemma fold_Qmax_is_maximum (xs : list Q) :
  forall x, is_maximum (fold_left Qmax xs x) (x :: xs).
Proof.
  induction xs as [|y xs IH]; intros x; cbn [fold_left].
  - split; [left|]. intros z Hz. apply list_elem_of_singleton in Hz. subst z.
    apply Qle_refl.
  - destruct (IH (Qmax x y)) as [Hin Hle]. split.
    + apply elem_of_cons in Hin as [Hin|Hin].
      * rewrite Hin. destruct (Qmax_cases x y) as [-> | ->];
          [left | right; left].
      * right; right; exact Hin.
    + intros z Hz.
      assert (Hm : (Qmax x y <= fold_left Qmax xs (Qmax x y))%Q) by (apply Hle; left).
      apply elem_of_cons in Hz as [->|Hz].
      * eapply Qle_trans; [apply Q.le_max_l | exact Hm].
      * apply elem_of_cons in Hz as [->|Hz].
        -- eapply Qle_trans; [apply Q.le_max_r | exact Hm].
        -- apply Hle. right; exact Hz.
Qed.

(** The accumulators after the statistics of [ms] have been added. *)
Lemma fold_accumulate (ms : list metrics) :
  forall acc,
    fold_left RayExecutor.accumulate ms acc
    = RayExecutor.Acc
        (RayExecutor.min_rewards acc ++ (min_episode_reward <$> ms))
        (RayExecutor.max_rewards acc ++ (max_episode_reward <$> ms))
        (RayExecutor.mean_rewards acc ++ (mean_episode_reward <$> ms))
        (RayExecutor.final_rewards acc ++ (final_episode_reward <$> ms))
        (RayExecutor.worker_op_throughputs acc ++ (mean_worker_ops_per_second <$> ms))
        (RayExecutor.worker_env_frame_throughputs acc
           ++ (mean_worker_env_frames_per_second <$> ms))
        (RayExecutor.acc_episodes_executed acc + total (episodes_executed <$> ms))
        (RayExecutor.acc_steps_executed acc + total (worker_steps <$> ms)).
Proof.
  induction ms as [|m ms IH]; intros acc; cbn [fold_left].
  - destruct acc; cbn. now rewrite !app_nil_r, !Z.add_0_r.
  - rewrite IH. destruct acc; cbn. rewrite <- !app_assoc. cbn.
    unfold total. f_equal; symmetry; apply Z.add_assoc.
Qed.

(** The loop over registered, live workers collects their statistics and
    leaves the registry and the actors as they are. *)
Lemma aggregate_loop_spec {X} (acs : list actor) (ids : list (worker * string))
    (workers : list worker) (snapshots : list metrics) :
  Forall2 (fun v m => exists a, acs !! v = Some a /\ workload_statistics a = m)
          workers snapshots ->
  Forall (fun v => is_Some (dict_get ids v)) workers ->
  forall acc (w : world X),
    actors (ray w) = acs -> worker_ids (self w) = ids ->
    exists w',
      RayExecutor.aggregate_loop (map KWorker workers) acc w
      = (Ret (fold_left RayExecutor.accumulate snapshots acc), w').
Proof.
  induction 1 as [|v m workers snapshots (a & Ha & Hm) _ IH]; intros Hreg acc w Hacs Hids.
  - now eexists.
  - apply Forall_cons in Hreg as [[label Hlabel] Hreg].
    cbn [map RayExecutor.aggregate_loop fold_left].
    destruct w as [[cs sw ids0 es us lg] [hp ri acs0 sb wt td tc ck cr] x].
    cbn in Hacs, Hids. subst acs0 ids0.
    unfold RayExecutor.worker_ids_getitem, RayExecutor.fetch_workload_statistics,
      remote, ray_get_actor, logger_info.
    unfold bind, get_self, get_ray, on_self, on_ray, ret; cbn.
    rewrite Hlabel. cbn. rewrite Ha. cbn. rewrite Hm.
    apply IH; [exact Hreg | reflexivity | reflexivity].
Qed.

(** C4. When [ray_env_sample_workers] is a non-empty list of registered, live
    workers, [get_aggregate_worker_results] returns: as [min_reward] the
    least of the workers' minimum episode rewards, as [max_reward] the
    greatest of their maximum episode rewards, as [mean_reward] the sum of
    their mean episode rewards over the number of workers (whatever their
    episode counts), as [mean_final_reward] the same mean of their final
    episode rewards, and as [episodes_executed] and [steps_executed] the sums
    of theirs. For three workers with mean rewards 1, 2 and 3, [mean_reward]
    is 2. *)
Theorem aggregate_worker_results_reduction {X} (w : world X)
    (workers : list worker) (snapshots : list metrics) :
  ray_env_sample_workers (self w) = AttrList workers ->
  workers <> [] ->
  Forall (fun v => is_Some (dict_get (worker_ids (self w)) v)) workers ->
  Forall2 (fun v m => exists a, actors (ray w) !! v = Some a
                                /\ workload_statistics a = m)
          workers snapshots ->
  exists stats w',
    RayExecutor.get_aggregate_worker_results w = (Ret stats, w')
    /\ is_minimum (WorkerStats.min_reward stats) (min_episode_reward <$> snapshots)
    /\ is_maximum (WorkerStats.max_reward stats) (max_episode_reward <$> snapshots)
    /\ WorkerStats.mean_reward stats
       = (Qsum (mean_episode_reward <$> snapshots)
          / inject_Z (Z.of_nat (length snapshots)))%Q
    /\ WorkerStats.mean_final_reward stats
       = (Qsum (final_episode_reward <$> snapshots)
          / inject_Z (Z.of_nat (length snapshots)))%Q
    /\ WorkerStats.episodes_executed stats = total (episodes_executed <$> snapshots)
    /\ WorkerStats.steps_executed stats = total (worker_steps <$> snapshots)
    /\ (forall m1 m2 m3,
          snapshots = [m1; m2; m3] ->
          mean_episode_reward m1 == 1 ->
          mean_episode_reward m2 == 2 ->
          mean_episode_reward m3 == 3 ->
          WorkerStats.mean_reward stats == 2).
Proof.
  intros Hattr Hne Hreg Hstats.
  destruct (aggregate_loop_spec _ _ _ _ Hstats Hreg
              (RayExecutor.Acc [] [] [] [] [] [] 0 0) w eq_refl eq_refl)
    as (w' & Hloop).
  rewrite fold_accumulate in Hloop. cbn in Hloop.
  destruct snapshots as [|m ms].
  { inversion Hstats. subst workers. contradiction. }
  eexists _, w'. split.
  - unfold RayExecutor.get_aggregate_worker_results, RayExecutor.iter_sample_workers.
    unfold bind at 1. unfold bind at 1. cbn. rewrite Hattr.
    change (ret (map KWorker workers) w) with (Ret (map KWorker workers), w).
    cbv iota beta. erewrite bind_Ret by exact Hloop.
    reflexivity.
  - cbn [WorkerStats.min_reward WorkerStats.max_reward WorkerStats.mean_reward
         WorkerStats.mean_final_reward WorkerStats.episodes_executed
         WorkerStats.steps_executed RayExecutor.mean_rewards
         RayExecutor.final_rewards RayExecutor.acc_episodes_executed
         RayExecutor.acc_steps_executed].
    split; [apply fold_Qmin_is_minimum|].
    split; [apply fold_Qmax_is_maximum|].
    unfold np_mean. rewrite !length_fmap.
    split; [reflexivity|]. split; [reflexivity|].
    split; [reflexivity|]. split; [reflexivity|].
    intros m1 m2 m3 [= -> ->] H1 H2 H3.
    unfold Qsum. cbn. rewrite H1, H2, H3. reflexivity.
Qed.

(** [aggregate_worker_results_reduction] on three workers with mean rewards
    1, 2 and 3. *)
Lemma aggregate_worker_results_reduction_witness :
  exists stats w',
    RayExecutor.get_aggregate_worker_results
      (Fixtures.cluster Fixtures.graded_worker 3 Fixtures.ticking_clock tt)
    = (Ret stats, w')
    /\ WorkerStats.mean_reward stats == 2.
Proof.
  destruct (aggregate_worker_results_reduction
              (Fixtures.cluster Fixtures.graded_worker 3 Fixtures.ticking_clock tt)
              [0; 1; 2]%nat
              [Fixtures.stats_with_mean 1; Fixtures.stats_with_mean 2;
               Fixtures.stats_with_mean 3])
    as (stats & w' & Hrun & _ & _ & _ & _ & _ & _ & Hthree).
  - reflexivity.
  - discriminate.
  - repeat constructor; eexists; reflexivity.
  - repeat constructor; eexists; split; reflexivity.
  - exists stats, w'. split; [exact Hrun|].
    apply (Hthree _ _ _ eq_refl); reflexivity.
Defined.

(** ** Creation of the remote workers *)

Lemma dict_get_set_eq {K V} `{EqDecision K} (d : list (K * V)) k v :
  dict_get (dict_set d k v) k = Some v.
Proof.
  induction d as [|[k' v'] d IH]; cbn.
  - now rewrite decide_True.
  - destruct (decide (k' = k)) as [->|Hne]; cbn.
    + now rewrite decide_True.
    + now rewrite decide_False.
Qed.

Lemma dict_get_set_ne {K V} `{EqDecision K} (d : list (K * V)) k k' v :
  k <> k' -> dict_get (dict_set d k v) k' = dict_get d k'.
Proof.
  intros Hne. induction d as [|[k0 v0] d IH]; cbn.
  - now rewrite decide_False.
  - destruct (decide (k0 = k)) as [->|Hk]; cbn.
    + now rewrite !decide_False.
    + destruct (decide (k0 = k')); [reflexivity | exact IH].
Qed.

(** The creation loop over [range_(i0, i0 + k)]: [k] copies of the config
    object are appended to the heap, [k] actors are appended to the actor
    table, the [j]-th of them built from the [j]-th copy and registered under
    the label of [i0 + j]; older registrations stay. *)
Lemma create_remote_workers_loop_spec {X} (cls : nat -> list pyval -> actor)
    (agent_config : nat) (args : list pyval) (v : pyval) (k : nat) :
  forall (i0 : nat) (workers : list worker) (w : world X),
    heap (ray w) !! agent_config = Some v ->
    exists w',
      RayExecutor.create_remote_workers_loop cls agent_config args (seq i0 k) workers w
      = (Ret (workers ++ seq (length (actors (ray w))) k), w')
      /\ heap (ray w') = heap (ray w) ++ replicate k v
      /\ actors (ray w')
         = actors (ray w)
           ++ ((fun j => cls (length (heap (ray w)) + j)%nat args) <$> seq 0 k)
      /\ (forall j, (j < k)%nat ->
            dict_get (worker_ids (self w')) (length (actors (ray w)) + j)%nat
            = Some (format_worker (i0 + j)))
      /\ (forall h, (h < length (actors (ray w)))%nat ->
            dict_get (worker_ids (self w')) h = dict_get (worker_ids (self w)) h).
Proof.
  induction k as [|k IH]; intros i0 workers w Hcfg.
  - exists w. cbn. rewrite !app_nil_r.
    split; [reflexivity|]. split; [reflexivity|]. split; [reflexivity|].
    split; [intros; lia | reflexivity].
  - cbn [seq RayExecutor.create_remote_workers_loop].
    destruct w as [[cs sw ids es us lg] [hp ri acs sb wt td tc ck cr] x].
    cbn in Hcfg.
    unfold deepcopy, RayExecutor.cls_remote.
    unfold bind, get_ray, on_ray, on_self, ret; cbn.
    unfold set_worker_ids, set_actors, set_heap; cbn. rewrite Hcfg; cbn.
    destruct (IH (S i0) (workers ++ [length acs])
                (World (Executor cs sw (dict_set ids (length acs) (format_worker i0)) es us lg)
                       (Runtime (hp ++ [v]) ri (acs ++ [cls (length hp) args]) sb wt td tc ck cr)
                       x))
      as (w' & Hrun & Hheap & Hactors & Hlabels & Hold).
    { cbn. now apply lookup_app_l_Some. }
    cbn in Hrun, Hheap, Hactors, Hlabels, Hold.
    rewrite !length_app in Hrun, Hactors, Hlabels, Hold. cbn [length] in *.
    replace (length acs + 1)%nat with (S (length acs)) in * by lia.
    exists w'. split; [|split; [|split; [|split]]].
    + rewrite <- app_assoc in Hrun. exact Hrun.
    + rewrite Hheap, <- app_assoc. reflexivity.
    + rewrite Hactors, <- app_assoc. cbn. do 2 f_equal.
      * f_equal. lia.
      * rewrite <- fmap_S_seq, <- list_fmap_compose. apply list_fmap_ext.
        intros _ j _. cbn. f_equal. lia.
    + intros j Hj. destruct j as [|j].
      * rewrite Hold by lia. rewrite !Nat.add_0_r. apply dict_get_set_eq.
      * replace (length acs + S j)%nat with (S (length acs) + j)%nat by lia.
        rewrite Hlabels by lia. do 2 f_equal. lia.
    + intros h Hh. rewrite Hold by lia.
      apply dict_get_set_ne. lia.
Qed.

(** C6. For every count [n] and every config object, [create_remote_workers]
    returns a list of [n] worker handles; the [i]-th of them is registered
    under the label [worker_i], and its actor was built from a config object
    of its own: the [i]-th new object on the heap, which did not exist before
    the call, differs from the caller's object and from the other workers'
    objects, and holds a copy of the caller's config. The objects that
    existed before the call are unchanged. *)
Theorem create_remote_workers_own_config {X} (cls : nat -> list pyval -> actor)
    (n : nat) (agent_config : nat) (args : list pyval) (v : pyval) (w : world X) :
  heap (ray w) !! agent_config = Some v ->
  exists workers w',
    RayExecutor.create_remote_workers cls (Z.of_nat n) agent_config args w
    = (Ret workers, w')
    /\ length workers = n
    /\ (forall i worker,
          workers !! i = Some worker ->
          dict_get (worker_ids (self w')) worker = Some (format_worker i)
          /\ exists config,
               actors (ray w') !! worker = Some (cls config args)
               /\ config = (length (heap (ray w)) + i)%nat
               /\ config <> agent_config
               /\ heap (ray w) !! config = None
               /\ heap (ray w') !! config = Some v)
    /\ (forall a, (a < length (heap (ray w)))%nat ->
          heap (ray w') !! a = heap (ray w) !! a)
    /\ format_worker 0 = "worker_0"%string
    /\ format_worker 7 = "worker_7"%string
    /\ format_worker 12 = "worker_12"%string.
Proof.
  intros Hcfg.
  destruct (create_remote_workers_loop_spec cls agent_config args v n 0 [] w Hcfg)
    as (w' & Hrun & Hheap & Hactors & Hlabels & _).
  exists (seq (length (actors (ray w))) n), w'.
  split; [|split; [|split; [|split]]].
  - unfold RayExecutor.create_remote_workers. rewrite Nat2Z.id. exact Hrun.
  - apply length_seq.
  - intros i worker Hi. apply lookup_seq in Hi as [-> Hi].
    split; [exact (Hlabels i Hi)|].
    exists (length (heap (ray w)) + i)%nat.
    pose proof (lookup_lt_Some _ _ _ Hcfg) as Hlt.
    split; [|split; [reflexivity|split; [lia|split]]].
    + rewrite Hactors, lookup_app_r by lia.
      replace (length (actors (ray w)) + i - length (actors (ray w)))%nat with i by lia.
      rewrite list_lookup_fmap.
      assert (Hseq : seq 0 n !! i = Some i) by (apply lookup_seq; split; [reflexivity|lia]).
      rewrite Hseq. reflexivity.
    + apply lookup_ge_None. lia.
    + rewrite Hheap, lookup_app_r by lia.
      replace (length (heap (ray w)) + i - length (heap (ray w)))%nat with i by lia.
      now apply lookup_replicate_2.
  - intros a Ha. rewrite Hheap. now apply lookup_app_l.
  - repeat split; reflexivity.
Qed.

(** [create_remote_workers_own_config] for three workers on a new runtime. *)
Lemma create_remote_workers_own_config_witness :
  exists workers w',
    RayExecutor.create_remote_workers Fixtures.value_worker 3 0%nat []
      (World (RayExecutor.__init__ []) (Fixtures.runtime0 Fixtures.ticking_clock) tt)
    = (Ret workers, w')
    /\ length workers = 3%nat
    /\ worker_ids (self w')
       = [(0%nat, "worker_0"%string); (1%nat, "worker_1"%string);
          (2%nat, "worker_2"%string)].
Proof.
  destruct (create_remote_workers_own_config Fixtures.value_worker 3 0%nat []
              (PDict [("type"%string, PStr "dqn")])
              (World (RayExecutor.__init__ []) (Fixtures.runtime0 Fixtures.ticking_clock) tt)
              eq_refl)
    as (workers & w' & Hrun & Hlen & _).
  exists workers, w'. split; [exact Hrun|]. split; [exact Hlen|].
  change (Z.of_nat 3) with 3 in Hrun.
  vm_compute in Hrun. injection Hrun as _ Hw. subst w'. reflexivity.
Defined.

(** ** The probe of the constructors *)

Lemma for_each_app {X A} (l1 l2 : list A) (body : A -> M X unit) w :
  for_each (l1 ++ l2) body w
  = bind (for_each l1 body) (fun _ => for_each l2 body) w.
Proof.
  revert w. induction l1 as [|x l1 IH]; intros w; cbn [app for_each].
  - reflexivity.
  - unfold bind in *. destruct (body x w) as [[[]|e|] w1]; [|reflexivity..].
    apply IH.
Qed.

Lemma is_True_false (v : pyval) : v <> PBool true -> is_True v = false.
Proof. destruct v as [| [|] | | | |]; cbn; congruence. Qed.

(** The probe of one registered, live worker: the call is submitted, and the
    assertion passes exactly when the answer is [True]. *)
Lemma test_worker_spec (v : worker) (label : string) (a : actor)
    (w : SyncBatchExecutor.state) :
  dict_get (worker_ids (self w)) v = Some label ->
  actors (ray w) !! v = Some a ->
  exists w',
    SyncBatchExecutor.test_worker (KWorker v) w
    = (if is_True (constructor_success a) then Ret tt else Raise AssertionError, w')
    /\ actors (ray w') = actors (ray w)
    /\ worker_ids (self w') = worker_ids (self w)
    /\ submitted (ray w') = submitted (ray w) ++ [(v, get_constructor_success)]
    /\ sub w' = sub w.
Proof.
  intros Hlabel Ha.
  destruct w as [[cs sw ids es us lg] [hp ri acs sb wt td tc ck cr] x].
  cbn in Hlabel, Ha.
  unfold SyncBatchExecutor.test_worker, RayExecutor.worker_ids_getitem,
    remote, ray_get_actor, logger_info.
  unfold bind, get_self, get_ray, on_self, on_ray, ret; cbn.
  rewrite Hlabel; cbn. rewrite Ha; cbn.
  destruct (is_True (constructor_success a)); eexists; (split; [reflexivity|]);
    cbn; auto.
Qed.

(** The probes of workers whose constructors all succeeded. *)
Lemma test_workers_pass (acs : list actor) (ids : list (worker * string))
    (vs : list worker) :
  Forall (fun v => is_Some (dict_get ids v)) vs ->
  Forall (fun v => exists a, acs !! v = Some a /\ constructor_success a = PBool true) vs ->
  forall w : SyncBatchExecutor.state,
    actors (ray w) = acs -> worker_ids (self w) = ids ->
    exists w',
      for_each (map KWorker vs) SyncBatchExecutor.test_worker w = (Ret tt, w')
      /\ actors (ray w') = acs
      /\ worker_ids (self w') = ids
      /\ submitted (ray w')
         = submitted (ray w) ++ ((fun v => (v, get_constructor_success)) <$> vs)
      /\ sub w' = sub w.
Proof.
  induction vs as [|v vs IH]; intros Hreg Hpass w Hacs Hids.
  - exists w. cbn. now rewrite app_nil_r.
  - apply Forall_cons in Hreg as [[label Hlabel] Hreg].
    apply Forall_cons in Hpass as [(a & Ha & Hok) Hpass].
    rewrite <- Hids in Hlabel. rewrite <- Hacs in Ha.
    destruct (test_worker_spec v label a w Hlabel Ha)
      as (w1 & Hrun1 & Hacs1 & Hids1 & Hsub1 & Hx1).
    rewrite Hok in Hrun1. cbn in Hrun1.
    destruct (IH Hreg Hpass w1) as (w' & Hrun & Hacs' & Hids' & Hsub' & Hx');
      [congruence | congruence |].
    exists w'. cbn [map for_each]. erewrite bind_Ret by exact Hrun1.
    split; [exact Hrun|]. split; [exact Hacs'|]. split; [exact Hids'|].
    split; [|congruence].
    rewrite Hsub', Hsub1, <- app_assoc. reflexivity.
Qed.

(** C8. On a list of registered, live workers: if some worker's probe answers
    anything but [True], [test_worker_init] raises [AssertionError] at the
    first such worker in list order, having submitted the probes of the
    workers up to that one and nothing else (no sampling call, and the task
    pool is untouched); if every probe answers [True], it returns, having
    submitted the probes of all workers and nothing else. *)
Theorem test_worker_init_stops_at_first_failure
    (w : SyncBatchExecutor.state) (workers : list worker) :
  ray_env_sample_workers (self w) = AttrList workers ->
  Forall (fun v => is_Some (dict_get (worker_ids (self w)) v)) workers ->
  (forall passed failing rest a,
     workers = passed ++ failing :: rest ->
     Forall (fun v => exists a, actors (ray w) !! v = Some a
                                /\ constructor_success a = PBool true) passed ->
     actors (ray w) !! failing = Some a ->
     constructor_success a <> PBool true ->
     exists w',
       SyncBatchExecutor.test_worker_init w = (Raise AssertionError, w')
       /\ submitted (ray w')
          = submitted (ray w)
            ++ ((fun v => (v, get_constructor_success)) <$> (passed ++ [failing]))
       /\ sub w' = sub w)
  /\
  (Forall (fun v => exists a, actors (ray w) !! v = Some a
                              /\ constructor_success a = PBool true) workers ->
   exists w',
     SyncBatchExecutor.test_worker_init w = (Ret tt, w')
     /\ submitted (ray w')
        = submitted (ray w) ++ ((fun v => (v, get_constructor_success)) <$> workers)
     /\ sub w' = sub w).
Proof.
  intros Hattr Hreg.
  assert (Hiter : RayExecutor.iter_sample_workers w = (Ret (map KWorker workers), w)).
  { unfold RayExecutor.iter_sample_workers, bind, get_self. now rewrite Hattr. }
  split.
  - intros passed failing rest a -> Hpassed Ha Hfail.
    apply Forall_app in Hreg as [Hreg_passed Hreg_rest].
    apply Forall_cons in Hreg_rest as [[label Hlabel] _].
    destruct (test_workers_pass _ _ passed Hreg_passed Hpassed w eq_refl eq_refl)
      as (w1 & Hrun1 & Hacs1 & Hids1 & Hsub1 & Hx1).
    rewrite <- Hids1 in Hlabel. rewrite <- Hacs1 in Ha.
    destruct (test_worker_spec failing label a w1 Hlabel Ha)
      as (w2 & Hrun2 & _ & _ & Hsub2 & Hx2).
    rewrite (is_True_false _ Hfail) in Hrun2.
    exists w2. split; [|split; [|congruence]].
    + unfold SyncBatchExecutor.test_worker_init.
      erewrite bind_Ret by exact Hiter.
      rewrite map_app, for_each_app. erewrite bind_Ret by exact Hrun1.
      cbn [map for_each]. erewrite bind_Raise by exact Hrun2. reflexivity.
    + rewrite Hsub2, Hsub1, fmap_app, <- app_assoc. reflexivity.
  - intros Hpass.
    destruct (test_workers_pass _ _ workers Hreg Hpass w eq_refl eq_refl)
      as (w' & Hrun & _ & _ & Hsub & Hx).
    exists w'. split; [|split; assumption].
    unfold SyncBatchExecutor.test_worker_init.
    erewrite bind_Ret by exact Hiter. exact Hrun.
Qed.

(** [test_worker_init_stops_at_first_failure] on three workers of which the
    second failed to construct. *)
Lemma test_worker_init_stops_at_first_failure_witness :
  exists w',
    SyncBatchExecutor.test_worker_init
      (Fixtures.cluster Fixtures.flaky_worker 3 Fixtures.ticking_clock
         (SyncBatchExecutor.Attrs RayTaskPool.empty))
    = (Raise AssertionError, w')
    /\ submitted (ray w')
       = [(0%nat, get_constructor_success); (1%nat, get_constructor_success)]
    /\ sub w' = SyncBatchExecutor.Attrs RayTaskPool.empty.
Proof.
  assert (Hreg : Forall (fun v => is_Some (dict_get (worker_ids (self
            (Fixtures.cluster Fixtures.flaky_worker 3 Fixtures.ticking_clock
               (SyncBatchExecutor.Attrs RayTaskPool.empty)))) v)) [0; 1; 2]%nat)
    by (repeat constructor; eexists; reflexivity).
  destruct (proj1 (test_worker_init_stops_at_first_failure
                     (Fixtures.cluster Fixtures.flaky_worker 3 Fixtures.ticking_clock
                        (SyncBatchExecutor.Attrs RayTaskPool.empty))
                     [0; 1; 2]%nat eq_refl Hreg)
              [0%nat] 1%nat [2%nat]
              (Fixtures.flaky_worker 2 []) eq_refl)
    as (w' & Hrun & Hsub & Hx).
  - repeat constructor. eexists. split; reflexivity.
  - reflexivity.
  - discriminate.
  - exists w'. split; [exact Hrun|]. split; [exact Hsub | exact Hx].
Defined.

(** * Further properties of the executors *)

(** ** Computations that only log and submit calls *)

Lemma differs_refl {X} (w : world X) : differs_in_log_and_calls w w.
Proof. destruct w as [[] [] x]. reflexivity. Qed.

Lemma differs_trans {X} (w1 w2 w3 : world X) :
  differs_in_log_and_calls w1 w2 -> differs_in_log_and_calls w2 w3 ->
  differs_in_log_and_calls w1 w3.
Proof.
  unfold differs_in_log_and_calls. intros H12 H23.
  destruct w1 as [[] [] x1], w2 as [[] [] x2], w3 as [[] [] x3].
  cbn in *. injection H12 as -> -> -> -> -> -> -> -> -> -> -> -> -> ->.
  exact H23.
Qed.

Lemma only_logs_bind {X A B} (c : M X A) (k : A -> M X B) :
  only_logs_and_calls c -> (forall a, only_logs_and_calls (k a)) ->
  only_logs_and_calls (bind c k).
Proof.
  intros Hc Hk w. unfold bind. specialize (Hc w).
  destruct (c w) as [[a|e|] w1]; cbn in *; [|exact Hc..].
  eapply differs_trans; [exact Hc | apply Hk].
Qed.

Lemma only_logs_pure {X A} (o : outcome A) : only_logs_and_calls (X := X) (lift o).
Proof. intros w. apply differs_refl. Qed.

Lemma only_logs_get_self {X A} (f : executor -> A) :
  only_logs_and_calls (X := X) (get_self f).
Proof. intros w. apply differs_refl. Qed.

Lemma only_logs_get_ray {X A} (f : ray_runtime -> A) :
  only_logs_and_calls (X := X) (get_ray f).
Proof. intros w. apply differs_refl. Qed.

Lemma only_logs_logger_info {X} f args :
  only_logs_and_calls (X := X) (logger_info f args).
Proof. intros [[] [] x]. reflexivity. Qed.

Lemma only_logs_remote {X} v m : only_logs_and_calls (X := X) (remote v m).
Proof. intros [[] [] x]. reflexivity. Qed.

Ltac only_logs_step :=
  first
    [ apply only_logs_bind; [|intros ?]
    | apply only_logs_logger_info
    | apply only_logs_remote
    | apply only_logs_get_self
    | apply only_logs_get_ray
    | apply only_logs_pure
    | match goal with
      | |- only_logs_and_calls (match ?x with _ => _ end) => destruct x
      end
    | solve [intros ?; apply differs_refl] ].

Lemma only_logs_aggregate_loop {X} keys acc :
  only_logs_and_calls (X := X) (RayExecutor.aggregate_loop keys acc).
Proof.
  revert acc. induction keys as [|k keys IH]; intros acc;
    cbn [RayExecutor.aggregate_loop].
  - repeat only_logs_step.
  - unfold RayExecutor.worker_ids_getitem, RayExecutor.fetch_workload_statistics,
      ray_get_actor.
    repeat only_logs_step. apply IH.
Qed.

Lemma only_logs_get_aggregate_worker_results {X} :
  only_logs_and_calls (X := X) RayExecutor.get_aggregate_worker_results.
Proof.
  unfold RayExecutor.get_aggregate_worker_results, RayExecutor.iter_sample_workers.
  apply only_logs_bind; [repeat only_logs_step|]. intros keys.
  apply only_logs_bind; [apply only_logs_aggregate_loop|]. intros acc.
  repeat only_logs_step.
Qed.

(** ** [get_aggregate_worker_results]: effects and errors *)

Lemma aggregate_loop_app {X} (l1 l2 : list pykey) :
  forall acc (w : world X),
    RayExecutor.aggregate_loop (l1 ++ l2) acc w
    = bind (RayExecutor.aggregate_loop l1 acc)
           (fun acc' => RayExecutor.aggregate_loop l2 acc') w.
Proof.
  induction l1 as [|k l1 IH]; intros acc w; cbn [app RayExecutor.aggregate_loop].
  - reflexivity.
  - unfold bind in *.
    destruct (RayExecutor.worker_ids_getitem k w) as [[label|e|] w1]; [|reflexivity..].
    destruct (logger_info _ _ w1) as [[[]|e|] w2]; [|reflexivity..].
    destruct (RayExecutor.fetch_workload_statistics k w2) as [[m|e|] w3]; [|reflexivity..].
    apply IH.
Qed.

(** The loop over registered, live workers, with the world it leaves: one
    log line and one statistics query per worker, in order. *)
Lemma aggregate_loop_run {X} (workers : list worker) (snapshots : list metrics)
    (labels : list string) :
  forall acc (w : world X),
    Forall2 (fun v m => exists a, actors (ray w) !! v = Some a
                                  /\ workload_statistics a = m) workers snapshots ->
    Forall2 (fun v label => dict_get (worker_ids (self w)) v = Some label)
            workers labels ->
    RayExecutor.aggregate_loop (map KWorker workers) acc w
    = (Ret (fold_left RayExecutor.accumulate snapshots acc),
       World (set_logger (fun l => l ++ (retrieving_line <$> labels)) (self w))
             (set_submitted
                (fun l => l ++ ((fun v => (v, get_workload_statistics)) <$> workers))
                (ray w))
             (sub w)).
Proof.
  revert snapshots labels.
  induction workers as [|v workers IH]; intros snapshots labels acc w Hstats Hlabels.
  - inversion Hstats; subst. inversion Hlabels; subst.
    destruct w as [[] [] x]. cbn. unfold set_logger, set_submitted; cbn.
    now rewrite !app_nil_r.
  - inversion Hstats as [|? m ? ms (a & Ha & Hm) Hstats']; subst.
    inversion Hlabels as [|? label ? ls Hlabel Hlabels']; subst.
    cbn [map RayExecutor.aggregate_loop fold_left].
    destruct w as [[cs sw ids es us lg] [hp ri acs sb wt td tc ck cr] x].
    cbn in Ha, Hlabel, Hstats', Hlabels'.
    unfold RayExecutor.worker_ids_getitem, RayExecutor.fetch_workload_statistics,
      remote, ray_get_actor, logger_info.
    unfold bind, get_self, get_ray, on_self, on_ray, ret; cbn.
    rewrite Hlabel; cbn. rewrite Ha; cbn.
    rewrite (IH ms ls); [|exact Hstats'|exact Hlabels'].
    unfold set_logger, set_submitted; cbn. rewrite <- !app_assoc. reflexivity.
Qed.

(** X1. On a list of registered, live workers, [get_aggregate_worker_results]
    returns and is read-only but for the log and the runtime's call trace:
    it logs one line per worker, with the worker's label, and submits one
    [get_workload_statistics] call per worker, in list order; the registry,
    the throughput lists, the heap, the actors and the subclass state are as
    before. *)
Theorem get_aggregate_worker_results_queries_each_worker_once {X}
    (w : world X) (workers : list worker) (snapshots : list metrics)
    (labels : list string) :
  ray_env_sample_workers (self w) = AttrList workers ->
  workers <> [] ->
  Forall2 (fun v m => exists a, actors (ray w) !! v = Some a
                                /\ workload_statistics a = m) workers snapshots ->
  Forall2 (fun v label => dict_get (worker_ids (self w)) v = Some label)
          workers labels ->
  exists stats,
    RayExecutor.get_aggregate_worker_results w
    = (Ret stats,
       World (set_logger (fun l => l ++ (retrieving_line <$> labels)) (self w))
             (set_submitted
                (fun l => l ++ ((fun v => (v, get_workload_statistics)) <$> workers))
                (ray w))
             (sub w)).
Proof.
  intros Hattr Hne Hstats Hlabels.
  pose proof (aggregate_loop_run workers snapshots labels
                (RayExecutor.Acc [] [] [] [] [] [] 0 0) w Hstats Hlabels) as Hloop.
  rewrite fold_accumulate in Hloop. cbn in Hloop.
  destruct snapshots as [|m ms].
  { inversion Hstats. subst workers. contradiction. }
  eexists.
  unfold RayExecutor.get_aggregate_worker_results, RayExecutor.iter_sample_workers.
  unfold bind at 1. unfold bind at 1. cbn. rewrite Hattr.
  change (ret (map KWorker workers) w) with (Ret (map KWorker workers), w).
  cbv iota beta. erewrite bind_Ret by exact Hloop.
  reflexivity.
Qed.

(** [get_aggregate_worker_results_queries_each_worker_once] on three workers. *)
Lemma get_aggregate_worker_results_queries_each_worker_once_witness :
  exists stats w',
    RayExecutor.get_aggregate_worker_results
      (Fixtures.cluster Fixtures.graded_worker 3 Fixtures.ticking_clock tt)
    = (Ret stats, w')
    /\ submitted (ray w')
       = [(0%nat, get_workload_statistics); (1%nat, get_workload_statistics);
          (2%nat, get_workload_statistics)]
    /\ logger (self w')
       = [retrieving_line "worker_0"; retrieving_line "worker_1";
          retrieving_line "worker_2"].
Proof.
  destruct (get_aggregate_worker_results_queries_each_worker_once
              (Fixtures.cluster Fixtures.graded_worker 3 Fixtures.ticking_clock tt)
              [0; 1; 2]%nat
              [Fixtures.stats_with_mean 1; Fixtures.stats_with_mean 2;
               Fixtures.stats_with_mean 3]
              ["worker_0"; "worker_1"; "worker_2"]%string)
    as (stats & Hrun).
  - reflexivity.
  - discriminate.
  - repeat constructor; eexists; split; reflexivity.
  - repeat constructor.
  - eexists stats, _. split; [exact Hrun|]. split; reflexivity.
Defined.

(** X2. Without workers there are no aggregates: when
    [ray_env_sample_workers] is still [None], [get_aggregate_worker_results]
    raises [TypeError]; when it is an empty list or an empty dict, it raises
    [ValueError] (the minimum of an empty list). In each case nothing is
    logged or submitted. *)
Theorem get_aggregate_worker_results_without_workers {X}
    (e : executor) (r : ray_runtime) (x : X) :
  RayExecutor.get_aggregate_worker_results
    (World (set_ray_env_sample_workers AttrNone e) r x)
  = (Raise TypeError, World (set_ray_env_sample_workers AttrNone e) r x)
  /\ RayExecutor.get_aggregate_worker_results
       (World (set_ray_env_sample_workers (AttrList []) e) r x)
     = (Raise ValueError, World (set_ray_env_sample_workers (AttrList []) e) r x)
  /\ RayExecutor.get_aggregate_worker_results
       (World (set_ray_env_sample_workers (AttrDict []) e) r x)
     = (Raise ValueError, World (set_ray_env_sample_workers (AttrDict []) e) r x).
Proof. repeat split. Qed.

(** X3. A worker of the list that is not in the registry stops the
    aggregation with [KeyError]: the workers before it (registered and live)
    have been logged and queried, the unregistered one and those after it
    have not. *)
Theorem get_aggregate_worker_results_unregistered_worker {X}
    (w : world X) (before after : list worker) (v : worker)
    (snapshots : list metrics) (labels : list string) :
  ray_env_sample_workers (self w) = AttrList (before ++ v :: after) ->
  Forall2 (fun v m => exists a, actors (ray w) !! v = Some a
                                /\ workload_statistics a = m) before snapshots ->
  Forall2 (fun v label => dict_get (worker_ids (self w)) v = Some label)
          before labels ->
  dict_get (worker_ids (self w)) v = None ->
  RayExecutor.get_aggregate_worker_results w
  = (Raise KeyError,
     World (set_logger (fun l => l ++ (retrieving_line <$> labels)) (self w))
           (set_submitted
              (fun l => l ++ ((fun v => (v, get_workload_statistics)) <$> before))
              (ray w))
           (sub w)).
Proof.
  intros Hattr Hstats Hlabels Hmissing.
  pose proof (aggregate_loop_run before snapshots labels
                (RayExecutor.Acc [] [] [] [] [] [] 0 0) w Hstats Hlabels) as Hloop.
  unfold RayExecutor.get_aggregate_worker_results, RayExecutor.iter_sample_workers.
  unfold bind at 1. unfold bind at 1. cbn. rewrite Hattr.
  change (ret (map KWorker (before ++ v :: after)) w)
    with (Ret (map KWorker (before ++ v :: after)), w).
  cbv iota beta. rewrite map_app.
  unfold bind at 1. rewrite aggregate_loop_app.
  erewrite bind_Ret by exact Hloop.
  cbn [map RayExecutor.aggregate_loop].
  destruct w as [[cs sw ids es us lg] [hp ri acs sb wt td tc ck cr] x].
  cbn in Hmissing |- *.
  unfold RayExecutor.worker_ids_getitem, bind, get_self; cbn.
  rewrite Hmissing. reflexivity.
Qed.

(** [get_aggregate_worker_results_unregistered_worker] on two registered
    workers followed by a handle that was never registered. *)
Lemma get_aggregate_worker_results_unregistered_worker_witness :
  let c := Fixtures.cluster Fixtures.graded_worker 2 Fixtures.ticking_clock tt in
  exists w',
    RayExecutor.get_aggregate_worker_results
      (World (set_ray_env_sample_workers (AttrList [0; 1; 5]%nat) (self c))
             (ray c) (sub c))
    = (Raise KeyError, w')
    /\ submitted (ray w')
       = [(0%nat, get_workload_statistics); (1%nat, get_workload_statistics)].
Proof.
  cbv zeta. eexists. split.
  - apply (get_aggregate_worker_results_unregistered_worker
             (World (set_ray_env_sample_workers (AttrList [0; 1; 5]%nat)
                       (self (Fixtures.cluster Fixtures.graded_worker 2
                                Fixtures.ticking_clock tt)))
                    (ray (Fixtures.cluster Fixtures.graded_worker 2
                            Fixtures.ticking_clock tt))
                    (sub (Fixtures.cluster Fixtures.graded_worker 2
                            Fixtures.ticking_clock tt)))
             [0; 1]%nat [] 5%nat
             [Fixtures.stats_with_mean 1; Fixtures.stats_with_mean 2]
             ["worker_0"; "worker_1"]%string).
    + reflexivity.
    + repeat constructor; eexists; split; reflexivity.
    + repeat constructor.
    + reflexivity.
  - reflexivity.
Defined.

(** ** The throughput aggregates *)






(** ** [ray_init] on any cluster spec *)

Lemma log_items_run {X} (spec : list (string * pyval)) :
  forall w : world X,
    for_each spec (fun kv => logger_info "{}: {}" [PStr (fst kv); snd kv]) w
    = (Ret tt,
       World (set_logger (fun l => l ++ (cluster_spec_line <$> spec)) (self w))
             (ray w) (sub w)).
Proof.
  induction spec as [|kv spec IH]; intros w.
  - destruct w as [[] r x]. cbn. unfold set_logger; cbn. now rewrite app_nil_r.
  - cbn [for_each]. erewrite bind_Ret by reflexivity. rewrite IH.
    destruct w as [[] r x]. cbn. unfold set_logger; cbn.
    now rewrite <- app_assoc.
Qed.

(** X5. [ray_init] returns for every cluster spec. It logs the header, one
    line per entry of the spec in the order of the dict, and then the warning
    exactly when the spec has no key [redis_host]; it calls [ray.init] once,
    with the values under [redis_address], [num_cpus] and [num_gpus], [None]
    standing for a missing key; other keys are logged and not passed on.
    Nothing else changes. *)
Theorem ray_init_effects {X} (w : world X) :
  let spec := cluster_spec (self w) in
  RayExecutor.ray_init w
  = (Ret tt,
     World (set_logger
              (fun l => l ++ cluster_spec_header :: (cluster_spec_line <$> spec)
                          ++ (if dict_contains spec "redis_host"%string
                              then [] else [the_redis_warning]))
              (self w))
           (set_ray_inits
              (fun l => l ++ [RayInit (get_or_None spec "redis_address")
                                      (get_or_None spec "num_cpus")
                                      (get_or_None spec "num_gpus")])
              (ray w))
           (sub w)).
Proof.
  cbv zeta. unfold RayExecutor.ray_init.
  erewrite bind_Ret by reflexivity.
  erewrite bind_Ret by reflexivity.
  erewrite bind_Ret by apply log_items_run.
  destruct w as [[cs sw ids es us lg] [hp ri acs sb wt td tc ck cr] x]. cbn.
  destruct (dict_contains cs "redis_host"%string); cbn;
    unfold bind, logger_warning, on_self, on_ray, ret, set_logger, set_ray_inits;
    cbn; rewrite <- !app_assoc; cbn; rewrite ?app_nil_r; reflexivity.
Qed.

(** ** Labels and registrations of [create_remote_workers] *)

Lemma to_uint_not_Nil (n : nat) : Nat.to_uint n <> Decimal.Nil.
Proof.
  intros H. pose proof (DecimalNat.Unsigned.to_of (Nat.to_uint n)) as E.
  rewrite DecimalNat.Unsigned.of_to in E. rewrite H in E. discriminate E.
Qed.

Lemma format_worker_inj (i j : nat) : format_worker i = format_worker j -> i = j.
Proof.
  unfold format_worker. intros H.
  lazy beta iota delta [String.append] in H. injection H as H.
  apply DecimalNat.Unsigned.to_uint_inj.
  pose proof (NilZero.usu _ (to_uint_not_Nil i)) as Hi.
  pose proof (NilZero.usu _ (to_uint_not_Nil j)) as Hj.
  rewrite H in Hi. rewrite Hi in Hj. now injection Hj.
Qed.

(** X6. The labels given by one call of [create_remote_workers] are pairwise
    distinct: two workers of the returned list that are registered under the
    same label are the same worker. *)
Theorem create_remote_workers_labels_distinct {X}
    (cls : nat -> list pyval -> actor) (n : Z) (agent_config : nat)
    (args : list pyval) (v : pyval) (w : world X) :
  heap (ray w) !! agent_config = Some v ->
  exists workers w',
    RayExecutor.create_remote_workers cls n agent_config args w = (Ret workers, w')
    /\ NoDup workers
    /\ (forall i j wi wj,
          workers !! i = Some wi -> workers !! j = Some wj ->
          dict_get (worker_ids (self w')) wi = dict_get (worker_ids (self w')) wj ->
          i = j /\ wi = wj).
Proof.
  intros Hcfg.
  destruct (create_remote_workers_loop_spec cls agent_config args v
              (Z.to_nat n) 0 [] w Hcfg)
    as (w' & Hrun & _ & _ & Hlabels & _).
  exists (seq (length (actors (ray w))) (Z.to_nat n)), w'.
  split; [exact Hrun|]. split; [apply NoDup_seq|].
  intros i j wi wj Hi Hj Hsame.
  apply lookup_seq in Hi as [-> Hi]. apply lookup_seq in Hj as [-> Hj].
  rewrite (Hlabels i Hi), (Hlabels j Hj) in Hsame.
  cbn [Nat.add] in Hsame. apply (inj Some) in Hsame.
  apply format_worker_inj in Hsame.
  split; [exact Hsame | now subst].
Qed.

(** [create_remote_workers_labels_distinct] for three workers. *)
Lemma create_remote_workers_labels_distinct_witness :
  exists workers w',
    RayExecutor.create_remote_workers Fixtures.value_worker 3 0%nat []
      (World (RayExecutor.__init__ []) (Fixtures.runtime0 Fixtures.ticking_clock) tt)
    = (Ret workers, w')
    /\ NoDup workers.
Proof.
  destruct (create_remote_workers_labels_distinct Fixtures.value_worker 3 0%nat []
              (PDict [("type"%string, PStr "dqn")])
              (World (RayExecutor.__init__ []) (Fixtures.runtime0 Fixtures.ticking_clock) tt)
              eq_refl)
    as (workers & w' & Hrun & Hnodup & _).
  exists workers, w'. split; assumption.
Defined.

(** X7. Two successive calls of [create_remote_workers] on the same executor:
    the handles of the second call differ from those of the first, the
    workers of the first call keep their labels, and the labels of the
    second call start again at [worker_0], so that a label names a worker
    within one call only. *)
Theorem create_remote_workers_twice {X}
    (cls1 cls2 : nat -> list pyval -> actor) (n1 n2 : Z) (agent_config : nat)
    (args1 args2 : list pyval) (v : pyval) (w : world X) :
  heap (ray w) !! agent_config = Some v ->
  exists workers1 w1 workers2 w2,
    RayExecutor.create_remote_workers cls1 n1 agent_config args1 w
    = (Ret workers1, w1)
    /\ RayExecutor.create_remote_workers cls2 n2 agent_config args2 w1
       = (Ret workers2, w2)
    /\ NoDup (workers1 ++ workers2)
    /\ (forall i wi, workers1 !! i = Some wi ->
          dict_get (worker_ids (self w2)) wi = Some (format_worker i))
    /\ (forall j wj, workers2 !! j = Some wj ->
          dict_get (worker_ids (self w2)) wj = Some (format_worker j)).
Proof.
  intros Hcfg.
  destruct (create_remote_workers_loop_spec cls1 agent_config args1 v
              (Z.to_nat n1) 0 [] w Hcfg)
    as (w1 & Hrun1 & Hheap1 & Hactors1 & Hlabels1 & _).
  assert (Hcfg1 : heap (ray w1) !! agent_config = Some v)
    by (rewrite Hheap1; now apply lookup_app_l_Some).
  destruct (create_remote_workers_loop_spec cls2 agent_config args2 v
              (Z.to_nat n2) 0 [] w1 Hcfg1)
    as (w2 & Hrun2 & _ & _ & Hlabels2 & Hold2).
  assert (Hlen1 : length (actors (ray w1))
                  = (length (actors (ray w)) + Z.to_nat n1)%nat)
    by (rewrite Hactors1, length_app, length_fmap, length_seq; reflexivity).
  exists (seq (length (actors (ray w))) (Z.to_nat n1)), w1,
         (seq (length (actors (ray w1))) (Z.to_nat n2)), w2.
  split; [exact Hrun1|]. split; [exact Hrun2|]. split; [|split].
  - rewrite Hlen1, <- seq_app. apply NoDup_seq.
  - intros i wi Hi. apply lookup_seq in Hi as [-> Hi].
    rewrite Hold2 by lia. apply Hlabels1, Hi.
  - intros j wj Hj. apply lookup_seq in Hj as [-> Hj]. apply Hlabels2, Hj.
Qed.

(** [create_remote_workers_twice] for two calls of two workers each: the
    workers 0 and 2 both carry the label [worker_0]. *)
Lemma create_remote_workers_twice_witness :
  exists workers1 w1 workers2 w2,
    RayExecutor.create_remote_workers Fixtures.value_worker 2 0%nat []
      (World (RayExecutor.__init__ []) (Fixtures.runtime0 Fixtures.ticking_clock) tt)
    = (Ret workers1, w1)
    /\ RayExecutor.create_remote_workers Fixtures.flaky_worker 2 0%nat [] w1
       = (Ret workers2, w2)
    /\ NoDup (workers1 ++ workers2).
Proof.
  destruct (create_remote_workers_twice Fixtures.value_worker Fixtures.flaky_worker
              2 2 0%nat [] [] (PDict [("type"%string, PStr "dqn")])
              (World (RayExecutor.__init__ []) (Fixtures.runtime0 Fixtures.ticking_clock) tt)
              eq_refl)
    as (workers1 & w1 & workers2 & w2 & Hrun1 & Hrun2 & Hnodup & _).
  exists workers1, w1, workers2, w2. repeat split; assumption.
Defined.

Lemma dict_get_bound (d : list (worker * string)) (bound h : nat) :
  Forall (fun kv => (fst kv < bound)%nat) d -> (bound <= h)%nat ->
  dict_get d h = None.
Proof.
  intros Hd Hh. induction Hd as [|[k v] d Hk _ IH]; cbn; [reflexivity|].
  cbn in Hk. rewrite decide_False by lia. exact IH.
Qed.

Lemma dict_set_new {K V} `{EqDecision K} (d : list (K * V)) k v :
  dict_get d k = None -> dict_set d k v = d ++ [(k, v)].
Proof.
  induction d as [|[k' v'] d IH]; cbn; [reflexivity|].
  destruct (decide (k' = k)); [discriminate|]. intros H. now rewrite IH.
Qed.

(** When every registered handle is one of an existing actor, the creation
    loop appends the new registrations to the registry, in creation order. *)
Lemma create_remote_workers_loop_registry {X} (cls : nat -> list pyval -> actor)
    (agent_config : nat) (args : list pyval) (k : nat) :
  forall (i0 : nat) (workers : list worker) (w : world X),
    Forall (fun kv => (fst kv < length (actors (ray w)))%nat) (worker_ids (self w)) ->
    worker_ids (self (snd (RayExecutor.create_remote_workers_loop cls agent_config
                             args (seq i0 k) workers w)))
    = worker_ids (self w)
      ++ ((fun j => ((length (actors (ray w)) + j)%nat, format_worker (i0 + j)))
            <$> seq 0 k).
Proof.
  induction k as [|k IH]; intros i0 workers w Hwf.
  - cbn. now rewrite app_nil_r.
  - cbn [seq RayExecutor.create_remote_workers_loop].
    destruct w as [[cs sw ids es us lg] [hp ri acs sb wt td tc ck cr] x].
    cbn in Hwf.
    unfold deepcopy, RayExecutor.cls_remote.
    unfold bind, get_ray, on_ray, on_self, ret; cbn.
    unfold set_worker_ids, set_actors, set_heap; cbn.
    rewrite (dict_set_new ids) by (eapply dict_get_bound; [exact Hwf | lia]).
    rewrite IH.
    + cbn. rewrite length_app. cbn. rewrite <- app_assoc. cbn.
      do 2 f_equal.
      * do 2 f_equal; lia.
      * rewrite <- fmap_S_seq, <- list_fmap_compose. apply list_fmap_ext.
        intros _ j _. cbn. f_equal; [lia | f_equal; lia].
    + cbn. rewrite length_app. cbn. apply Forall_app. split.
      * eapply Forall_impl; [exact Hwf|]. intros kv Hkv. cbn in Hkv. lia.
      * repeat constructor. cbn. lia.
Qed.

(** X8. After [create_remote_workers] on an executor whose registry holds
    only handles of existing actors, [get_sample_worker_ids] returns the
    handles registered before followed by the new workers in creation order;
    on a new executor it returns exactly the list that
    [create_remote_workers] returned. *)
Theorem get_sample_worker_ids_after_create {X}
    (cls : nat -> list pyval -> actor) (n : Z) (agent_config : nat)
    (args : list pyval) (v : pyval) (w : world X) :
  heap (ray w) !! agent_config = Some v ->
  Forall (fun kv => (fst kv < length (actors (ray w)))%nat) (worker_ids (self w)) ->
  exists workers w',
    RayExecutor.create_remote_workers cls n agent_config args w = (Ret workers, w')
    /\ RayExecutor.get_sample_worker_ids w'
       = (Ret (map KWorker (dict_keys (worker_ids (self w)) ++ workers)), w')
    /\ (worker_ids (self w) = [] ->
        RayExecutor.get_sample_worker_ids w' = (Ret (map KWorker workers), w')).
Proof.
  intros Hcfg Hwf.
  destruct (create_remote_workers_loop_spec cls agent_config args v
              (Z.to_nat n) 0 [] w Hcfg) as (w' & Hrun & _).
  pose proof (create_remote_workers_loop_registry cls agent_config args
                (Z.to_nat n) 0 [] w Hwf) as Hids.
  rewrite Hrun in Hids. cbn [snd] in Hids.
  exists (seq (length (actors (ray w))) (Z.to_nat n)), w'.
  split; [exact Hrun|].
  assert (Hkeys : dict_keys (worker_ids (self w'))
                  = dict_keys (worker_ids (self w))
                    ++ seq (length (actors (ray w))) (Z.to_nat n)).
  { rewrite Hids. unfold dict_keys. rewrite map_app. f_equal.
    assert (Hseq : seq (length (actors (ray w))) (Z.to_nat n)
                   = Nat.add (length (actors (ray w))) <$> seq 0 (Z.to_nat n))
      by (rewrite fmap_add_seq; f_equal; lia).
    rewrite Hseq. clear Hseq Hids Hrun.
    induction (seq 0 (Z.to_nat n)) as [|j l IHl]; [reflexivity|].
    rewrite !fmap_cons. cbn [map fst]. f_equal. exact IHl. }
  split.
  - unfold RayExecutor.get_sample_worker_ids, bind, get_self, ret.
    now rewrite Hkeys.
  - intros Hempty.
    unfold RayExecutor.get_sample_worker_ids, bind, get_self, ret.
    now rewrite Hkeys, Hempty.
Qed.

(** [get_sample_worker_ids_after_create] for three workers on a new
    executor. *)
Lemma get_sample_worker_ids_after_create_witness :
  exists workers w',
    RayExecutor.create_remote_workers Fixtures.value_worker 3 0%nat []
      (World (RayExecutor.__init__ []) (Fixtures.runtime0 Fixtures.ticking_clock) tt)
    = (Ret workers, w')
    /\ RayExecutor.get_sample_worker_ids w' = (Ret (map KWorker workers), w').
Proof.
  destruct (get_sample_worker_ids_after_create Fixtures.value_worker 3 0%nat []
              (PDict [("type"%string, PStr "dqn")])
              (World (RayExecutor.__init__ []) (Fixtures.runtime0 Fixtures.ticking_clock) tt)
              eq_refl (Forall_nil_2 _))
    as (workers & w' & Hrun & _ & Hnew).
  exists workers, w'. split; [exact Hrun | exact (Hnew eq_refl)].
Defined.

(** ** [result_by_worker] when the workers are kept in a dict *)

(** X9. When [ray_env_sample_workers] is a dict: for a key of the dict whose
    worker is live, [result_by_worker] submits one statistics query to that
    worker and returns its episode reward and episode timestep series; for
    an identifier that is no key it raises [AssertionError] and submits
    nothing; without identifier it takes the first worker of the dict, and
    raises [IndexError] when the dict is empty. *)
Theorem result_by_worker_on_dict {X} (w : world X) (d : list (pykey * worker)) :
  ray_env_sample_workers (self w) = AttrDict d ->
  (forall k v a,
     dict_get d k = Some v -> actors (ray w) !! v = Some a ->
     RayExecutor.result_by_worker (Some k) w
     = (Ret (episode_rewards (workload_statistics a),
             episode_timesteps (workload_statistics a)),
        World (self w)
              (set_submitted (fun l => l ++ [(v, get_workload_statistics)]) (ray w))
              (sub w)))
  /\ (forall k, dict_get d k = None ->
        RayExecutor.result_by_worker (Some k) w = (Raise AssertionError, w))
  /\ (forall k v d' a,
        d = (k, v) :: d' -> actors (ray w) !! v = Some a ->
        RayExecutor.result_by_worker None w
        = RayExecutor.result_by_worker (Some k) w)
  /\ (d = [] -> RayExecutor.result_by_worker None w = (Raise IndexError, w)).
Proof.
  intros Hattr.
  destruct w as [[cs sw ids es us lg] [hp ri acs sb wt td tc ck cr] x].
  cbn in Hattr. subst sw.
  split; [|split; [|split]].
  - intros k v a Hk Ha. cbn in Ha.
    unfold RayExecutor.result_by_worker, remote, ray_get_actor, dict_contains.
    unfold bind, get_self, get_ray, on_ray, ret; cbn.
    rewrite Hk; cbn. rewrite Ha. reflexivity.
  - intros k Hk.
    unfold RayExecutor.result_by_worker, dict_contains.
    unfold bind, get_self; cbn. rewrite Hk. reflexivity.
  - intros k v d' a -> Ha. cbn in Ha.
    unfold RayExecutor.result_by_worker, remote, ray_get_actor, dict_contains,
      list_getitem.
    unfold bind, get_self, get_ray, on_ray, ret; cbn.
    rewrite decide_True by reflexivity. reflexivity.
  - intros ->. reflexivity.
Qed.

(** [result_by_worker_on_dict] on two workers kept under their labels. *)
Lemma result_by_worker_on_dict_witness :
  let c := Fixtures.cluster Fixtures.graded_worker 2 Fixtures.ticking_clock tt in
  let w := World (set_ray_env_sample_workers
                    (AttrDict [(KStr "worker_0", 0%nat); (KStr "worker_1", 1%nat)])
                    (self c))
                 (ray c) (sub c) in
  fst (RayExecutor.result_by_worker (Some (KStr "worker_1")) w)
  = Ret (episode_rewards (Fixtures.stats_with_mean 2),
         episode_timesteps (Fixtures.stats_with_mean 2))
  /\ fst (RayExecutor.result_by_worker (Some (KStr "worker_7")) w)
     = Raise AssertionError.
Proof.
  cbv zeta.
  pose proof (result_by_worker_on_dict
                (World (set_ray_env_sample_workers
                          (AttrDict [(KStr "worker_0", 0%nat); (KStr "worker_1", 1%nat)])
                          (self (Fixtures.cluster Fixtures.graded_worker 2
                                   Fixtures.ticking_clock tt)))
                       (ray (Fixtures.cluster Fixtures.graded_worker 2
                               Fixtures.ticking_clock tt))
                       (sub (Fixtures.cluster Fixtures.graded_worker 2
                               Fixtures.ticking_clock tt)))
                [(KStr "worker_0", 0%nat); (KStr "worker_1", 1%nat)] eq_refl)
    as (Hfound & Hmissing & _).
  split.
  - rewrite (Hfound (KStr "worker_1") 1%nat
               (Fixtures.graded_worker 2 []) eq_refl eq_refl).
    reflexivity.
  - rewrite (Hmissing (KStr "worker_7") eq_refl). reflexivity.
Defined.

(** ** [execute_workload]: edge cases *)


(** X10. A workload without the key [num_timesteps] or without the key
    [report_interval] makes [execute_workload] raise [KeyError] once
    [init_tasks] has run: no step is executed, the clock is not read, and
    both throughput lists are left empty. *)
Theorem execute_workload_missing_key {X} (init : M X unit) (step : M X (list Z))
    (fuel : nat) (workload : gmap string Z) (w w1 : world X) :
  init (reset_throughputs w) = (Ret tt, w1) ->
  workload !! "num_timesteps"%string = None
  \/ workload !! "report_interval"%string = None ->
  RayExecutor.execute_workload init step fuel workload w
  = (Raise KeyError, reset_throughputs w1).
Proof.
  intros Hinit Hmissing.
  unfold RayExecutor.execute_workload.
  do 2 (erewrite bind_Ret by reflexivity).
  erewrite bind_Ret by exact Hinit.
  do 2 (erewrite bind_Ret by reflexivity).
  unfold RayExecutor.workload_getitem.
  destruct (workload !! "num_timesteps"%string) as [nt|] eqn:Hnt.
  - destruct Hmissing as [Hm|Hm]; [discriminate|]. rewrite Hm.
    erewrite bind_Ret by reflexivity. reflexivity.
  - reflexivity.
Qed.

(** [execute_workload_missing_key] for a workload that only gives
    [num_timesteps]. *)
Lemma execute_workload_missing_key_witness :
  fst (RayExecutor.execute_workload RayExecutor.init_tasks Fixtures.counting_step 12
         {[ "num_timesteps"%string := 1000 ]}
         (Fixtures.cluster Fixtures.value_worker 4 Fixtures.ticking_clock 0%nat))
  = Raise KeyError.
Proof.
  erewrite (execute_workload_missing_key RayExecutor.init_tasks
              Fixtures.counting_step 12 {[ "num_timesteps"%string := 1000 ]});
    [reflexivity | reflexivity | right; reflexivity].
Defined.



Lemma keeps_bind {X A B} (c : M X A) (k : A -> M X B) :
  keeps_throughputs c -> (forall a, keeps_throughputs (k a)) ->
  keeps_throughputs (bind c k).
Proof.
  intros Hc Hk w. unfold bind. specialize (Hc w).
  destruct (c w) as [[a|e|] w1]; cbn in *; [|exact Hc..].
  destruct (Hk a w1) as [H1 H2]. destruct Hc as [H3 H4].
  split; congruence.
Qed.

Lemma keeps_of_only_logs {X A} (c : M X A) :
  only_logs_and_calls c -> keeps_throughputs c.
Proof.
  intros Hc w. specialize (Hc w). unfold differs_in_log_and_calls in Hc.
  rewrite Hc. destruct w as [[] [] x]. split; reflexivity.
Qed.

Lemma keeps_monotonic {X} : keeps_throughputs (X := X) monotonic.
Proof. intros [[] [] x]. split; reflexivity. Qed.

Lemma keeps_truediv {X} a b : keeps_throughputs (X := X) (truediv a b).
Proof. intros w. unfold truediv. destruct (Qeq_bool b 0); split; reflexivity. Qed.

Lemma keeps_len_sample_workers {X} :
  keeps_throughputs (X := X) RayExecutor.len_sample_workers.
Proof.
  intros w. unfold RayExecutor.len_sample_workers, bind, get_self.
  destruct (ray_env_sample_workers (self w)); split; reflexivity.
Qed.

(** The part of [execute_workload] between the throughput loop and the
    summary leaves the throughput lists alone. *)
Lemma keeps_get_aggregate_worker_results {X} :
  keeps_throughputs (X := X) RayExecutor.get_aggregate_worker_results.
Proof. apply keeps_of_only_logs, only_logs_get_aggregate_worker_results. Qed.

Lemma keeps_logger_info {X} f args : keeps_throughputs (X := X) (logger_info f args).
Proof. apply keeps_of_only_logs, only_logs_logger_info. Qed.




Lemma report_loop_skipped {X} (step : M X (list Z)) fuel report_interval
    iteration_step iteration_updates (w : world X) :
  report_interval <= iteration_step ->
  RayExecutor.report_loop step fuel report_interval iteration_step iteration_updates w
  = (Ret (iteration_step, iteration_updates), w).
Proof.
  intros Hle. destruct fuel; cbn [RayExecutor.report_loop];
    destruct (Z.ltb_spec iteration_step report_interval); try lia; reflexivity.
Qed.

Lemma workload_loop_no_progress {X} (step : M X (list Z)) fuel
    num_timesteps report_interval :
  1 <= num_timesteps -> report_interval <= 0 ->
  forall its (w : world X),
    RayExecutor.timesteps_executed its < num_timesteps ->
    fst (RayExecutor.workload_loop step fuel num_timesteps report_interval its w)
    = OutOfFuel.
Proof.
  intros Hnt Hri. induction fuel as [|fuel IH]; intros its w Hlt;
    cbn [RayExecutor.workload_loop];
    destruct (Z.ltb_spec (RayExecutor.timesteps_executed its) num_timesteps);
    try lia; [reflexivity|].
  erewrite bind_Ret by reflexivity.
  erewrite bind_Ret by (apply report_loop_skipped; lia). cbv iota beta.
  erewrite bind_Ret by reflexivity.
  unfold truediv at 1. rewrite Qeq_bool_inject_Z_nonzero by lia.
  erewrite bind_Ret by reflexivity.
  erewrite bind_Ret by reflexivity.
  apply IH. cbn. lia.
Qed.

(** X12. With [num_timesteps >= 1] and [report_interval <= 0] the run never
    ends, whatever the step does: the inner loop is skipped, every iteration
    adds zero timesteps, and [execute_workload] exhausts every loop budget
    (once [init_tasks] has returned). *)
Theorem execute_workload_nonpositive_report_interval {X}
    (init : M X unit) (step : M X (list Z))
    (workload : gmap string Z) (num_timesteps report_interval : Z) :
  workload !! "num_timesteps"%string = Some num_timesteps ->
  workload !! "report_interval"%string = Some report_interval ->
  1 <= num_timesteps ->
  report_interval <= 0 ->
  (forall w, exists w', init w = (Ret tt, w')) ->
  forall fuel w,
    fst (RayExecutor.execute_workload init step fuel workload w) = OutOfFuel.
Proof.
  intros Hnt Hri Hnt1 Hri0 Hinit fuel w.
  unfold RayExecutor.execute_workload.
  do 2 (erewrite bind_Ret by reflexivity). cbv beta.
  match goal with |- context [bind init _ ?w0] =>
    destruct (Hinit w0) as (w1 & Hrun)
  end.
  erewrite bind_Ret by exact Hrun.
  do 2 (erewrite bind_Ret by reflexivity).
  unfold RayExecutor.workload_getitem. rewrite Hnt, Hri.
  do 3 (erewrite bind_Ret by reflexivity). cbv beta.
  match goal with
  | |- context [bind (RayExecutor.workload_loop step fuel num_timesteps report_interval ?its) _ ?w2] =>
      pose proof (workload_loop_no_progress step fuel num_timesteps report_interval
                    Hnt1 Hri0 its w2 ltac:(cbn; lia)) as Hloop;
      destruct (RayExecutor.workload_loop step fuel num_timesteps report_interval its w2)
        as [o w3] eqn:E
  end.
  cbn in Hloop. subst o. erewrite bind_OutOfFuel by exact E. reflexivity.
Qed.

(** [execute_workload_nonpositive_report_interval] for a report interval of
    zero. *)
Lemma execute_workload_nonpositive_report_interval_witness :
  fst (RayExecutor.execute_workload RayExecutor.init_tasks Fixtures.counting_step
         500 (Fixtures.workload 1000 0)
         (Fixtures.cluster Fixtures.value_worker 4 Fixtures.ticking_clock 0%nat))
  = OutOfFuel.
Proof.
  apply (execute_workload_nonpositive_report_interval
           RayExecutor.init_tasks Fixtures.counting_step
           (Fixtures.workload 1000 0) 1000 0
           (workload_num_timesteps 1000 0) (workload_report_interval 1000 0)
           ltac:(lia) ltac:(lia) (fun w => ex_intro _ w eq_refl)).
Defined.

Lemma workload_loop_step_raises {X} (step : M X (list Z)) (e : exn) fuel
    num_timesteps report_interval its (w : world X) :
  RayExecutor.timesteps_executed its < num_timesteps ->
  1 <= report_interval ->
  (forall w, exists w',
     step w = (Raise e, w')
     /\ env_sample_iteration_throughputs (self w')
        = env_sample_iteration_throughputs (self w)
     /\ update_iteration_throughputs (self w')
        = update_iteration_throughputs (self w)) ->
  exists w',
    RayExecutor.workload_loop step (S (S fuel)) num_timesteps report_interval its w
    = (Raise e, w')
    /\ env_sample_iteration_throughputs (self w')
       = env_sample_iteration_throughputs (self w)
    /\ update_iteration_throughputs (self w')
       = update_iteration_throughputs (self w).
Proof.
  intros Hlt Hri Hstep.
  cbn [RayExecutor.workload_loop].
  destruct (Z.ltb_spec (RayExecutor.timesteps_executed its) num_timesteps); [|lia].
  erewrite bind_Ret by reflexivity. cbv beta.
  match goal with |- context [bind (RayExecutor.report_loop step (S fuel) report_interval 0 0) _ ?w1] =>
    destruct (Hstep w1) as (w2 & Hraise & Hs & Hu);
    assert (Hinner : RayExecutor.report_loop step (S fuel) report_interval 0 0 w1
                     = (Raise e, w2))
  end.
  { cbn [RayExecutor.report_loop].
    destruct (Z.ltb_spec 0 report_interval); [|lia].
    erewrite bind_Raise by exact Hraise. reflexivity. }
  exists w2. erewrite bind_Raise by exact Hinner.
  split; [reflexivity|]. rewrite Hs, Hu.
  destruct w as [[] [] x]. split; reflexivity.
Qed.

(** X13. An exception of the step primitive ends the workload: when every
    call of the step raises [e], [execute_workload] with [num_timesteps] and
    [report_interval] at least one raises [e] for every loop budget from 2
    on, and leaves both throughput lists empty. So the abstract executor,
    whose [_execute_step] raises [NotImplementedError], cannot execute a
    workload. *)
Theorem execute_workload_step_exception {X}
    (init : M X unit) (step : M X (list Z)) (e : exn)
    (workload : gmap string Z) (num_timesteps report_interval : Z) :
  workload !! "num_timesteps"%string = Some num_timesteps ->
  workload !! "report_interval"%string = Some report_interval ->
  1 <= num_timesteps ->
  1 <= report_interval ->
  (forall w, exists w', init w = (Ret tt, w')) ->
  (forall w, exists w',
     step w = (Raise e, w')
     /\ env_sample_iteration_throughputs (self w')
        = env_sample_iteration_throughputs (self w)
     /\ update_iteration_throughputs (self w')
        = update_iteration_throughputs (self w)) ->
  forall fuel w,
    exists w',
      RayExecutor.execute_workload init step (S (S fuel)) workload w
      = (Raise e, w')
      /\ env_sample_iteration_throughputs (self w') = Some []
      /\ update_iteration_throughputs (self w') = Some [].
Proof.
  intros Hnt Hri Hnt1 Hri1 Hinit Hstep fuel w.
  unfold RayExecutor.execute_workload.
  do 2 (erewrite bind_Ret by reflexivity). cbv beta.
  match goal with |- context [bind init _ ?w0] =>
    destruct (Hinit w0) as (w1 & Hrun)
  end.
  erewrite bind_Ret by exact Hrun.
  do 2 (erewrite bind_Ret by reflexivity).
  unfold RayExecutor.workload_getitem. rewrite Hnt, Hri.
  do 3 (erewrite bind_Ret by reflexivity). cbv beta.
  match goal with
  | |- context [bind (RayExecutor.workload_loop step (S (S fuel)) num_timesteps
                        report_interval ?its) _ ?w2] =>
      destruct (workload_loop_step_raises step e fuel num_timesteps report_interval
                  its w2 ltac:(cbn; lia) Hri1 Hstep) as (w3 & Hloop & Hs & Hu)
  end.
  exists w3. erewrite bind_Raise by exact Hloop.
  split; [reflexivity|]. rewrite Hs, Hu.
  destruct w1 as [[] [] x]. split; reflexivity.
Qed.

(** [execute_workload_step_exception] for the abstract [RayExecutor]. *)
Lemma execute_workload_step_exception_witness :
  exists w',
    RayExecutor.execute_workload RayExecutor.init_tasks RayExecutor._execute_step
      2 (Fixtures.workload 1000 100)
      (Fixtures.cluster Fixtures.value_worker 4 Fixtures.ticking_clock tt)
    = (Raise NotImplementedError, w')
    /\ env_sample_iteration_throughputs (self w') = Some []
    /\ update_iteration_throughputs (self w') = Some [].
Proof.
  apply (execute_workload_step_exception
           RayExecutor.init_tasks RayExecutor._execute_step NotImplementedError
           (Fixtures.workload 1000 100) 1000 100
           (workload_num_timesteps 1000 100) (workload_report_interval 1000 100)
           ltac:(lia) ltac:(lia) (fun w => ex_intro _ w eq_refl)).
  intros w. exists w. repeat split.
Defined.

(** ** The summary returned by [execute_workload] *)

Lemma np_min_attr_inv {X} (a : option (list Q)) (w : world X) m w' :
  RayExecutor.np_min_attr a w = (Ret m, w') ->
  w' = w /\ exists l, a = Some l /\ l <> [] /\ is_minimum m l.
Proof.
  unfold RayExecutor.np_min_attr, lift, raise, np_min.
  destruct a as [[|x xs]|]; intros H; try discriminate.
  injection H as <- <-. split; [reflexivity|]. eexists. split; [reflexivity|].
  split; [discriminate | apply fold_Qmin_is_minimum].
Qed.

Lemma np_max_attr_inv {X} (a : option (list Q)) (w : world X) m w' :
  RayExecutor.np_max_attr a w = (Ret m, w') ->
  w' = w /\ exists l, a = Some l /\ l <> [] /\ is_maximum m l.
Proof.
  unfold RayExecutor.np_max_attr, lift, raise, np_max.
  destruct a as [[|x xs]|]; intros H; try discriminate.
  injection H as <- <-. split; [reflexivity|]. eexists. split; [reflexivity|].
  split; [discriminate | apply fold_Qmax_is_maximum].
Qed.

Lemma np_mean_attr_inv {X} (a : option (list Q)) (w : world X) m w' :
  RayExecutor.np_mean_attr a w = (Ret m, w') ->
  w' = w /\ exists l, a = Some l /\ m = np_mean l.
Proof.
  unfold RayExecutor.np_mean_attr, ret, raise.
  destruct a as [l|]; intros H; try discriminate.
  injection H as <- <-. split; [reflexivity|]. now exists l.
Qed.



(** ** The throughput loop of [execute_workload] *)

Lemma Qeq_bool_false_iff (t : Q) : Qeq_bool t 0 = false <-> ~ t == 0.
Proof.
  split.
  - intros H E. apply Qeq_bool_iff in E. congruence.
  - intros H. destruct (Qeq_bool t 0) eqn:E; [|reflexivity].
    apply Qeq_bool_iff in E. contradiction.
Qed.

(** A segment of the throughput loop over iterations of non-zero duration. *)
Lemma throughputs_segment {X} (its : RayExecutor.iterations) (k : nat) :
  forall (i : nat) (samples updates : list Q) (w : world X),
    env_sample_iteration_throughputs (self w) = Some samples ->
    update_iteration_throughputs (self w) = Some updates ->
    (i + k <= length (RayExecutor.iteration_times its))%nat ->
    length (RayExecutor.iteration_time_steps its)
    = length (RayExecutor.iteration_times its) ->
    length (RayExecutor.iteration_update_steps its)
    = length (RayExecutor.iteration_times its) ->
    Forall (fun t => ~ t == 0) (take k (drop i (RayExecutor.iteration_times its))) ->
    for_each (seq i k) (fun i =>
      it_time <- list_getitem (RayExecutor.iteration_times its) i ;;
      steps <- list_getitem (RayExecutor.iteration_time_steps its) i ;;
      sample_throughput <- truediv (inject_Z steps) it_time ;;
      RayExecutor.append_env_sample_throughput sample_throughput ;;;
      updates <- list_getitem (RayExecutor.iteration_update_steps its) i ;;
      update_throughput <- truediv (inject_Z updates) it_time ;;
      RayExecutor.append_update_throughput update_throughput) w
    = (Ret tt,
       with_throughputs
         (samples ++ zip_with throughput_of
                       (take k (drop i (RayExecutor.iteration_time_steps its)))
                       (take k (drop i (RayExecutor.iteration_times its))))
         (updates ++ zip_with throughput_of
                       (take k (drop i (RayExecutor.iteration_update_steps its)))
                       (take k (drop i (RayExecutor.iteration_times its))))
         w).
Proof.
  induction k as [|k IH]; intros i samples updates w Hs Hu Hik Hls Hlu Hnz.
  - destruct w as [[cs sw ids es us lg] r x]. cbn in Hs, Hu. subst es us.
    cbn. unfold with_throughputs; cbn. now rewrite !app_nil_r.
  - destruct (lookup_lt_is_Some_2 (RayExecutor.iteration_times its) i ltac:(lia))
      as [t Ht].
    destruct (lookup_lt_is_Some_2 (RayExecutor.iteration_time_steps its) i ltac:(lia))
      as [s Hst].
    destruct (lookup_lt_is_Some_2 (RayExecutor.iteration_update_steps its) i ltac:(lia))
      as [u Hut].
    rewrite (drop_S _ _ _ Ht) in Hnz |- *.
    rewrite (drop_S _ _ _ Hst), (drop_S _ _ _ Hut).
    cbn [take zip_with] in Hnz |- *.
    apply Forall_cons in Hnz as [Hnz_t Hnz].
    apply Qeq_bool_false_iff in Hnz_t.
    cbn [seq for_each].
    assert (Hbody :
      (it_time <- list_getitem (RayExecutor.iteration_times its) i ;;
       steps <- list_getitem (RayExecutor.iteration_time_steps its) i ;;
       sample_throughput <- truediv (inject_Z steps) it_time ;;
       RayExecutor.append_env_sample_throughput sample_throughput ;;;
       updates <- list_getitem (RayExecutor.iteration_update_steps its) i ;;
       update_throughput <- truediv (inject_Z updates) it_time ;;
       RayExecutor.append_update_throughput update_throughput) w
      = (Ret tt, with_throughputs (samples ++ [throughput_of s t])
                                  (updates ++ [throughput_of u t]) w)).
    { unfold list_getitem. rewrite Ht, Hst, Hut.
      destruct w as [[cs sw ids es us lg] r x]. cbn in Hs, Hu. subst es us.
      do 2 (erewrite bind_Ret by reflexivity).
      unfold truediv at 1. rewrite Hnz_t.
      do 3 (erewrite bind_Ret by reflexivity).
      unfold truediv at 1. rewrite Hnz_t.
      erewrite bind_Ret by reflexivity. reflexivity. }
    erewrite bind_Ret by exact Hbody.
    rewrite (IH (S i) (samples ++ [throughput_of s t]) (updates ++ [throughput_of u t]));
      try assumption; try lia; try (destruct w as [[] r x]; reflexivity).
    destruct w as [[] r x]. unfold with_throughputs; cbn.
    now rewrite <- !app_assoc.
Qed.

(** X15. The throughput loop: when the three lists of raw iteration values
    have the same length and no iteration took zero time, the loop appends
    to [env_sample_iteration_throughputs] the steps of each iteration over
    its duration, and to [update_iteration_throughputs] the update steps of
    each iteration over its duration, in iteration order, and changes
    nothing else. *)
Theorem throughputs_loop_values {X} (its : RayExecutor.iterations)
    (samples updates : list Q) (w : world X) :
  env_sample_iteration_throughputs (self w) = Some samples ->
  update_iteration_throughputs (self w) = Some updates ->
  length (RayExecutor.iteration_time_steps its)
  = length (RayExecutor.iteration_times its) ->
  length (RayExecutor.iteration_update_steps its)
  = length (RayExecutor.iteration_times its) ->
  Forall (fun t => ~ t == 0) (RayExecutor.iteration_times its) ->
  RayExecutor.throughputs_loop its w
  = (Ret tt,
     with_throughputs
       (samples ++ zip_with throughput_of (RayExecutor.iteration_time_steps its)
                                          (RayExecutor.iteration_times its))
       (updates ++ zip_with throughput_of (RayExecutor.iteration_update_steps its)
                                          (RayExecutor.iteration_times its))
       w).
Proof.
  intros Hs Hu Hls Hlu Hnz. unfold RayExecutor.throughputs_loop.
  rewrite (throughputs_segment its _ 0 samples updates w Hs Hu); try assumption;
    try lia.
  - rewrite !drop_0, !take_ge by lia. reflexivity.
  - rewrite drop_0, take_ge by lia. exact Hnz.
Qed.

(** [throughputs_loop_values] on two iterations of 100 steps, taking one and
    two seconds. *)
Lemma throughputs_loop_values_witness :
  RayExecutor.throughputs_loop
    (RayExecutor.Iterations 200 [1; 2]%Q [100; 100] [0; 4])
    (reset_throughputs
       (Fixtures.cluster Fixtures.value_worker 1 Fixtures.ticking_clock tt))
  = (Ret tt,
     with_throughputs [throughput_of 100 1; throughput_of 100 2]
                      [throughput_of 0 1; throughput_of 4 2]
       (reset_throughputs
          (Fixtures.cluster Fixtures.value_worker 1 Fixtures.ticking_clock tt))).
Proof.
  apply (throughputs_loop_values
           (RayExecutor.Iterations 200 [1; 2]%Q [100; 100] [0; 4]) [] []);
    try reflexivity.
  repeat constructor; intros E; discriminate E.
Defined.

(** The throughput loop stops at the first iteration that took zero time: with lists of the same length, it raises [ZeroDivisionError] when
    it divides the steps of that iteration, having appended the throughputs
    of the iterations before it and nothing for that iteration or the later
    ones. *)
Lemma throughputs_loop_stops {X} (its : RayExecutor.iterations)
    (before after : list Q) (t : Q) (samples updates : list Q) (w : world X) :
  env_sample_iteration_throughputs (self w) = Some samples ->
  update_iteration_throughputs (self w) = Some updates ->
  length (RayExecutor.iteration_time_steps its)
  = length (RayExecutor.iteration_times its) ->
  length (RayExecutor.iteration_update_steps its)
  = length (RayExecutor.iteration_times its) ->
  RayExecutor.iteration_times its = before ++ t :: after ->
  Forall (fun t => ~ t == 0) before ->
  t == 0 ->
  RayExecutor.throughputs_loop its w
  = (Raise ZeroDivisionError,
     with_throughputs
       (samples ++ zip_with throughput_of
                     (take (length before) (RayExecutor.iteration_time_steps its))
                     before)
       (updates ++ zip_with throughput_of
                     (take (length before) (RayExecutor.iteration_update_steps its))
                     before)
       w).
Proof.
  intros Hs Hu Hls Hlu Htimes Hnz Hzero.
  assert (Hlen : length (RayExecutor.iteration_times its)
                 = (length before + S (length after))%nat)
    by (rewrite Htimes, length_app; reflexivity).
  unfold RayExecutor.throughputs_loop.
  rewrite Hlen, seq_app, for_each_app. cbn [Nat.add].
  assert (Htake : take (length before) (drop 0 (RayExecutor.iteration_times its))
                  = before)
    by (rewrite drop_0, Htimes, take_app_length; reflexivity).
  erewrite bind_Ret.
  2:{ apply (throughputs_segment its (length before) 0 samples updates w Hs Hu);
        try assumption; try lia. now rewrite Htake. }
  rewrite Htake, !drop_0. cbn [seq for_each].
  assert (Ht : RayExecutor.iteration_times its !! length before = Some t)
    by (rewrite Htimes; apply list_lookup_middle; reflexivity).
  destruct (lookup_lt_is_Some_2 (RayExecutor.iteration_time_steps its)
              (length before) ltac:(lia)) as [s Hst].
  unfold list_getitem at 1 2. rewrite Ht, Hst.
  erewrite bind_Raise; [reflexivity|].
  do 2 (erewrite bind_Ret by reflexivity).
  unfold truediv at 1.
  apply Qeq_bool_iff in Hzero. rewrite Hzero.
  erewrite bind_Raise by reflexivity. reflexivity.
Qed.

(** X16. The throughput loop stops at the first iteration that took zero
    time: with lists of the same length, it raises [ZeroDivisionError] when
    it divides the steps of that iteration, having appended the throughputs
    of the iterations before it and nothing for that iteration or the later
    ones. *)
Theorem throughputs_loop_zero_duration {X} (its : RayExecutor.iterations)
    (before after : list Q) (t : Q) (samples updates : list Q) (w : world X) :
  env_sample_iteration_throughputs (self w) = Some samples ->
  update_iteration_throughputs (self w) = Some updates ->
  length (RayExecutor.iteration_time_steps its)
  = length (RayExecutor.iteration_times its) ->
  length (RayExecutor.iteration_update_steps its)
  = length (RayExecutor.iteration_times its) ->
  RayExecutor.iteration_times its = before ++ t :: after ->
  Forall (fun t => ~ t == 0) before ->
  t == 0 ->
  RayExecutor.throughputs_loop its w
  = (Raise ZeroDivisionError,
     with_throughputs
       (samples ++ zip_with throughput_of
                     (take (length before) (RayExecutor.iteration_time_steps its))
                     before)
       (updates ++ zip_with throughput_of
                     (take (length before) (RayExecutor.iteration_update_steps its))
                     before)
       w).
Proof. apply throughputs_loop_stops. Qed.

(** [throughputs_loop_zero_duration] on three iterations of which the second
    took no time. *)
Lemma throughputs_loop_zero_duration_witness :
  fst (RayExecutor.throughputs_loop
         (RayExecutor.Iterations 300 [1; 0; 2]%Q [100; 100; 100] [0; 0; 0])
         (reset_throughputs
            (Fixtures.cluster Fixtures.value_worker 1 Fixtures.ticking_clock tt)))
  = Raise ZeroDivisionError.
Proof.
  erewrite (throughputs_loop_zero_duration
              (RayExecutor.Iterations 300 [1; 0; 2]%Q [100; 100; 100] [0; 0; 0])
              [1%Q] [2%Q] 0%Q [] []);
    try reflexivity.
  repeat constructor. intros E; discriminate E.
Defined.

(** ** The number of iterations of a run *)

Lemma keeps_run {X A} (c : M X A) (w : world X) o w1 :
  keeps_throughputs c -> c w = (o, w1) ->
  env_sample_iteration_throughputs (self w1)
  = env_sample_iteration_throughputs (self w)
  /\ update_iteration_throughputs (self w1)
     = update_iteration_throughputs (self w).
Proof. intros Hc Hrun. specialize (Hc w). now rewrite Hrun in Hc. Qed.

Lemma keeps_pure {X A} (o : outcome A) : keeps_throughputs (X := X) (lift o).
Proof. intros w. split; reflexivity. Qed.

Lemma keeps_ret {X A} (a : A) : keeps_throughputs (X := X) (ret a).
Proof. intros w. split; reflexivity. Qed.

Lemma keeps_report_loop {X} (step : M X (list Z)) fuel report_interval :
  keeps_throughputs step ->
  forall iteration_step iteration_updates,
    keeps_throughputs (RayExecutor.report_loop step fuel report_interval
                         iteration_step iteration_updates).
Proof.
  intros Hstep. induction fuel as [|fuel IH]; intros iteration_step iteration_updates;
    cbn [RayExecutor.report_loop];
    destruct (iteration_step <? report_interval);
    try (intros w; split; reflexivity).
  apply keeps_bind; [exact Hstep|]. intros out.
  apply keeps_bind; [apply keeps_pure|]. intros [a b]. apply IH.
Qed.

Lemma keeps_workload_loop {X} (step : M X (list Z)) fuel
    num_timesteps report_interval :
  keeps_throughputs step ->
  forall its,
    keeps_throughputs (RayExecutor.workload_loop step fuel num_timesteps
                         report_interval its).
Proof.
  intros Hstep. induction fuel as [|fuel IH]; intros its;
    cbn [RayExecutor.workload_loop];
    destruct (RayExecutor.timesteps_executed its <? num_timesteps);
    try (intros w; split; reflexivity).
  apply keeps_bind; [apply keeps_monotonic|]. intros start.
  apply keeps_bind; [now apply keeps_report_loop|]. intros [a b].
  apply keeps_bind; [apply keeps_monotonic|]. intros finish.
  apply keeps_bind; [apply keeps_truediv|]. intros percent.
  apply keeps_bind; [apply keeps_logger_info|]. intros _. apply IH.
Qed.

(** What the outer loop adds: [k] iterations, each of at least
    [report_interval] steps, all but the last begun below [num_timesteps]. *)
Lemma workload_loop_counts {X} (step : M X (list Z)) fuel
    num_timesteps report_interval :
  forall its (w : world X) its' w',
    RayExecutor.workload_loop step fuel num_timesteps report_interval its w
    = (Ret its', w') ->
    exists k : nat,
      length (RayExecutor.iteration_times its')
      = (length (RayExecutor.iteration_times its) + k)%nat
      /\ length (RayExecutor.iteration_time_steps its')
         = (length (RayExecutor.iteration_time_steps its) + k)%nat
      /\ length (RayExecutor.iteration_update_steps its')
         = (length (RayExecutor.iteration_update_steps its) + k)%nat
      /\ RayExecutor.timesteps_executed its + Z.of_nat k * report_interval
         <= RayExecutor.timesteps_executed its'
      /\ (k = 0%nat
          \/ RayExecutor.timesteps_executed its
             + (Z.of_nat k - 1) * report_interval < num_timesteps).
Proof.
  induction fuel as [|fuel IH]; intros its w its' w';
    cbn [RayExecutor.workload_loop];
    destruct (Z.ltb_spec (RayExecutor.timesteps_executed its) num_timesteps) as [Hlt|Hge].
  - discriminate.
  - intros [= <- <-]. exists 0%nat. repeat split; lia.
  - intros H.
    apply bind_inv_Ret in H as (iteration_start & w1 & _ & H).
    apply bind_inv_Ret in H as ([iteration_step iteration_updates] & w2 & Hinner & H).
    apply bind_inv_Ret in H as (now & w3 & _ & H).
    apply bind_inv_Ret in H as (percent & w4 & _ & H).
    apply bind_inv_Ret in H as (u & w5 & _ & H).
    apply report_loop_exit in Hinner.
    apply IH in H as (k & Ht & Hs & Hu & Hte & Hlast).
    cbn in Ht, Hs, Hu, Hte, Hlast.
    rewrite length_app in Ht, Hs, Hu. cbn in Ht, Hs, Hu.
    exists (S k). repeat split; try lia.
  - intros [= <- <-]. exists 0%nat. repeat split; lia.
Qed.

Lemma first_zero_duration (times : list Q) :
  Forall (fun t => ~ t == 0) times
  \/ exists before t after,
       times = before ++ t :: after
       /\ Forall (fun t => ~ t == 0) before /\ t == 0.
Proof.
  induction times as [|t times IH]; [left; constructor|].
  destruct (Qeq_dec t 0) as [Hz|Hnz].
  - right. exists [], t, times. repeat split; [constructor | exact Hz].
  - destruct IH as [Hall | (before & t' & after & -> & Hb & Hz)].
    + left. now constructor.
    + right. exists (t :: before), t', after. repeat split; [|exact Hz].
      now constructor.
Qed.

(** When the throughput loop returns, it has appended one throughput per
    iteration to each list. *)
Lemma throughputs_loop_lengths {X} (its : RayExecutor.iterations)
    (samples updates : list Q) (w w' : world X) :
  env_sample_iteration_throughputs (self w) = Some samples ->
  update_iteration_throughputs (self w) = Some updates ->
  length (RayExecutor.iteration_time_steps its)
  = length (RayExecutor.iteration_times its) ->
  length (RayExecutor.iteration_update_steps its)
  = length (RayExecutor.iteration_times its) ->
  RayExecutor.throughputs_loop its w = (Ret tt, w') ->
  exists samples' updates',
    env_sample_iteration_throughputs (self w') = Some samples'
    /\ update_iteration_throughputs (self w') = Some updates'
    /\ length samples'
       = (length samples + length (RayExecutor.iteration_times its))%nat
    /\ length updates'
       = (length updates + length (RayExecutor.iteration_times its))%nat.
Proof.
  intros Hs Hu Hls Hlu Hrun.
  destruct (first_zero_duration (RayExecutor.iteration_times its))
    as [Hnz | (before & t & after & Htimes & Hb & Hz)].
  - unfold RayExecutor.throughputs_loop in Hrun.
    rewrite (throughputs_segment its _ 0 samples updates w Hs Hu) in Hrun;
      try assumption; try lia;
      [|rewrite drop_0, take_ge by lia; exact Hnz].
    injection Hrun as <-. rewrite !drop_0, !take_ge by lia.
    destruct w as [[] r x]. cbn.
    eexists _, _. split; [reflexivity|]. split; [reflexivity|].
    rewrite !length_app, !length_zip_with. lia.
  - rewrite (throughputs_loop_stops its before after t samples updates w)
      in Hrun by assumption.
    discriminate.
Qed.

Lemma keeps_counting_step : keeps_throughputs Fixtures.counting_step.
Proof. intros [[] [] x]. split; reflexivity. Qed.

(** X17. The number of iterations of a completed run.  If the step
    primitive leaves the two throughput lists alone, a result of
    [execute_workload] comes with two throughput lists of one common length
    [n], the number of report iterations: [n] is at least one, every
    iteration counted at least [report_interval] steps, so that
    [n * report_interval] is at most the [timesteps_executed] of the result,
    and the last iteration began below [num_timesteps], so that
    [(n - 1) * report_interval] is below [num_timesteps]. *)
Theorem execute_workload_iteration_count {X} (init : M X unit)
    (step : M X (list Z)) (fuel : nat) (workload : gmap string Z)
    (num_timesteps report_interval : Z) (w : world X)
    (r : WorkloadResult.t) (w' : world X) :
  keeps_throughputs step ->
  workload !! "num_timesteps"%string = Some num_timesteps ->
  workload !! "report_interval"%string = Some report_interval ->
  RayExecutor.execute_workload init step fuel workload w = (Ret r, w') ->
  exists samples updates,
    RayExecutor.sample_metrics w' = (Ret (Some samples), w')
    /\ RayExecutor.update_metrics w' = (Ret (Some updates), w')
    /\ length samples = length updates
    /\ (1 <= length samples)%nat
    /\ Z.of_nat (length samples) * report_interval
       <= WorkloadResult.timesteps_executed r
    /\ (Z.of_nat (length samples) - 1) * report_interval < num_timesteps.
Proof.
  intros Hstep Hnt Hri H. unfold RayExecutor.execute_workload in H.
  do 3 (apply bind_inv_Ret in H as (? & ? & _ & H)).
  apply bind_inv_Ret in H as (? & wr1 & Hr1 & H).
  apply bind_inv_Ret in H as (? & wr2 & Hr2 & H).
  apply bind_inv_Ret in H as (nt & wg1 & Hg1 & H).
  apply bind_inv_Ret in H as (ri & wg2 & Hg2 & H).
  apply bind_inv_Ret in H as (start & wm & Hm & H).
  apply bind_inv_Ret in H as (its & wl & Hloop & H).
  apply bind_inv_Ret in H as (finish & wf & Hf & H).
  cbv zeta in H.
  apply bind_inv_Ret in H as (? & wo & Ho & H).
  apply bind_inv_Ret in H as (? & wi1 & Hi1 & H).
  apply bind_inv_Ret in H as (? & wu & Hup & H).
  apply bind_inv_Ret in H as (? & wi2 & Hi2 & H).
  apply bind_inv_Ret in H as ([] & wt & Hthr & H).
  apply bind_inv_Ret in H as (stats & wa & Hagg & H).
  apply bind_inv_Ret in H as (n & wn & Hn & H).
  apply bind_inv_Ret in H as (? & wi3 & Hi3 & H).
  apply bind_inv_Ret in H as (? & wi4 & Hi4 & H).
  apply bind_inv_Ret in H as (ops & wops & Hops & H).
  apply bind_inv_Ret in H as (samples & wb & Hsamples & H).
  apply bind_inv_Ret in H as (updates & wc & Hupdates & H).
  apply bind_inv_Ret in H as (min_s & w1 & Hmin_s & H).
  apply bind_inv_Ret in H as (max_s & w2 & Hmax_s & H).
  apply bind_inv_Ret in H as (mean_s & w3 & Hmean_s & H).
  apply bind_inv_Ret in H as (min_u & w4 & Hmin_u & H).
  apply bind_inv_Ret in H as (max_u & w5 & Hmax_u & H).
  apply bind_inv_Ret in H as (mean_u & w6 & Hmean_u & H).
  unfold ret in H. injection H as Hr Hw. subst r w'.
  unfold get_self in Hsamples, Hupdates.
  injection Hsamples as <- <-. injection Hupdates as <- <-.
  apply np_min_attr_inv in Hmin_s as (-> & ls & Hls & Hne_s & _).
  apply np_max_attr_inv in Hmax_s as (-> & _).
  apply np_mean_attr_inv in Hmean_s as (-> & _).
  apply np_min_attr_inv in Hmin_u as (-> & lu & Hlu & _ & _).
  apply np_max_attr_inv in Hmax_u as (-> & _).
  apply np_mean_attr_inv in Hmean_u as (-> & _).
  (* the two keys *)
  unfold RayExecutor.workload_getitem in Hg1, Hg2. rewrite Hnt in Hg1.
  rewrite Hri in Hg2. unfold ret in Hg1, Hg2.
  injection Hg1 as <- <-. injection Hg2 as <- <-.
  (* the lists are empty when the loop starts and when it ends *)
  assert (Hstart : env_sample_iteration_throughputs (self wr2) = Some []
                   /\ update_iteration_throughputs (self wr2) = Some []).
  { unfold on_self in Hr1, Hr2. injection Hr1 as _ <-. injection Hr2 as _ <-.
    split; reflexivity. }
  destruct Hstart as [Hs0 Hu0].
  destruct (keeps_run _ _ _ _ keeps_monotonic Hm) as [Es1 Eu1].
  destruct (keeps_run _ _ _ _
              (keeps_workload_loop step fuel num_timesteps report_interval Hstep _)
              Hloop) as [Es2 Eu2].
  destruct (keeps_run _ _ _ _ keeps_monotonic Hf) as [Es3 Eu3].
  destruct (keeps_run _ _ _ _ (keeps_truediv _ _) Ho) as [Es4 Eu4].
  destruct (keeps_run _ _ _ _ (keeps_logger_info _ _) Hi1) as [Es5 Eu5].
  destruct (keeps_run _ _ _ _ (keeps_truediv _ _) Hup) as [Es6 Eu6].
  destruct (keeps_run _ _ _ _ (keeps_logger_info _ _) Hi2) as [Es7 Eu7].
  assert (Hs : env_sample_iteration_throughputs (self wi2) = Some [])
    by congruence.
  assert (Hu : update_iteration_throughputs (self wi2) = Some [])
    by congruence.
  (* the iterations of the loop *)
  apply workload_loop_counts in Hloop as (k & Ht & Hts & Hus & Hte & Hlast).
  cbn in Ht, Hts, Hus, Hte, Hlast.
  destruct (throughputs_loop_lengths its [] [] wi2 wt Hs Hu
              ltac:(congruence) ltac:(congruence) Hthr)
    as (samples' & updates' & Hs' & Hu' & Hlen_s & Hlen_u).
  cbn in Hlen_s, Hlen_u.
  (* the lists are read unchanged after the loop *)
  destruct (keeps_run _ _ _ _ keeps_get_aggregate_worker_results Hagg) as [Es8 Eu8].
  destruct (keeps_run _ _ _ _ keeps_len_sample_workers Hn) as [Es9 Eu9].
  destruct (keeps_run _ _ _ _ (keeps_logger_info _ _) Hi3) as [Es10 Eu10].
  destruct (keeps_run _ _ _ _ (keeps_logger_info _ _) Hi4) as [Es11 Eu11].
  destruct (keeps_run _ _ _ _ (keeps_truediv _ _) Hops) as [Es12 Eu12].
  assert (ls = samples') by congruence. assert (lu = updates') by congruence.
  subst ls lu.
  exists samples', updates'. cbn.
  unfold RayExecutor.sample_metrics, RayExecutor.update_metrics, get_self.
  rewrite Hls, Hlu.
  assert (Hk : (1 <= k)%nat).
  { destruct samples'; [contradiction|]. cbn in Hlen_s. lia. }
  repeat split; lia.
Qed.

(** [execute_workload_iteration_count] at the run of the four-worker
    cluster: ten iterations of 100 steps for 1000 time steps. *)
Lemma execute_workload_iteration_count_witness :
  exists r w' samples,
    RayExecutor.execute_workload RayExecutor.init_tasks Fixtures.counting_step 12
      (Fixtures.workload 1000 100)
      (Fixtures.cluster Fixtures.value_worker 4 Fixtures.ticking_clock 0%nat)
    = (Ret r, w')
    /\ RayExecutor.sample_metrics w' = (Ret (Some samples), w')
    /\ (1 <= length samples)%nat
    /\ (Z.of_nat (length samples) - 1) * 100 < 1000.
Proof.
  destruct (RayExecutor.execute_workload RayExecutor.init_tasks
              Fixtures.counting_step 12 (Fixtures.workload 1000 100)
              (Fixtures.cluster Fixtures.value_worker 4 Fixtures.ticking_clock 0%nat))
    as [o w'] eqn:E.
  destruct o as [r| |]; [| vm_compute in E; discriminate ..].
  destruct (execute_workload_iteration_count _ _ _ _ 1000 100 _ r w'
              keeps_counting_step
              (workload_num_timesteps 1000 100)
              (workload_report_interval 1000 100) E)
    as (samples & updates & Hs & _ & _ & Hn & _ & Hlast).
  exists r, w', samples. repeat split; assumption.
Defined.

(** ** The two static builders *)

Lemma dict_get_remove_same {K V} `{EqDecision K} (d : list (K * V)) (k : K) :
  dict_get (dict_remove d k) k = None.
Proof.
  induction d as [|[k' v] d IH]; [reflexivity|]. cbn.
  destruct (decide (k' = k)) as [E|E]; [exact IH|].
  cbn. now rewrite decide_False by exact E.
Qed.

Lemma dict_get_remove_other {K V} `{EqDecision K} (d : list (K * V)) (k k0 : K) :
  k0 <> k -> dict_get (dict_remove d k) k0 = dict_get d k0.
Proof.
  intros Hne. induction d as [|[k' v] d IH]; [reflexivity|]. cbn.
  destruct (decide (k' = k)) as [E|E].
  - subst k'. now rewrite decide_False by congruence.
  - cbn. destruct (decide (k' = k0)); [reflexivity | exact IH].
Qed.

(** The run of [build_agent_from_config] on a config dict that has a
    [type]: the copy enters the heap behind the existing objects and loses
    its [type]; the outcome is the one of the class lookup and call. *)
Lemma build_agent_from_config_run {X A}
    (lookup_classes : list (string * (list (string * pyval) -> outcome A)))
    (agent_config : nat) (items : list (string * pyval)) (type : pyval)
    (w : world X) :
  heap (ray w) !! agent_config = Some (PDict items) ->
  dict_get items "type"%string = Some type ->
  RayExecutor.build_agent_from_config lookup_classes agent_config w
  = (match type with
     | PStr name =>
         match dict_get lookup_classes name with
         | Some agent_cls => agent_cls (dict_remove items "type"%string)
         | None => Raise TypeError
         end
     | _ => Raise TypeError
     end,
     World (self w)
           (set_heap (fun h => h ++ [PDict (dict_remove items "type"%string)]) (ray w))
           (sub w)).
Proof.
  intros Hcell Htype.
  destruct w as [e [hp ri acs sb wt td tc ck cr] x]. cbn in Hcell.
  unfold RayExecutor.build_agent_from_config, deepcopy.
  unfold bind, get_ray, on_ray, ret; cbn.
  rewrite Hcell. cbn.
  rewrite list_lookup_middle by reflexivity. rewrite Htype.
  unfold set_heap; cbn.
  rewrite insert_app_r_alt by lia. rewrite Nat.sub_diag. cbn.
  destruct type as [| | | |name|]; try reflexivity.
  destruct (dict_get lookup_classes name); reflexivity.
Qed.

(** X18. [build_agent_from_config] pops the type on a copy.  For a config
    dict whose [type] names a registered class, the outcome is the one of
    that class called with the other entries of the config: the keyword
    arguments have no [type] and agree with the config on every other key.
    The caller's config object is left as it was, with its [type], and so a
    second call on the same config has the same outcome. *)
Theorem build_agent_from_config_pops_on_a_copy {X A}
    (lookup_classes : list (string * (list (string * pyval) -> outcome A)))
    (agent_cls : list (string * pyval) -> outcome A)
    (agent_config : nat) (items : list (string * pyval)) (name : string)
    (w : world X) :
  heap (ray w) !! agent_config = Some (PDict items) ->
  dict_get items "type"%string = Some (PStr name) ->
  dict_get lookup_classes name = Some agent_cls ->
  exists kwargs w',
    RayExecutor.build_agent_from_config lookup_classes agent_config w
    = (agent_cls kwargs, w')
    /\ dict_get kwargs "type"%string = None
    /\ (forall k, k <> "type"%string -> dict_get kwargs k = dict_get items k)
    /\ heap (ray w') !! agent_config = Some (PDict items)
    /\ self w' = self w
    /\ fst (RayExecutor.build_agent_from_config lookup_classes agent_config w')
       = agent_cls kwargs.
Proof.
  intros Hcell Htype Hcls.
  exists (dict_remove items "type"%string). eexists.
  split.
  { rewrite (build_agent_from_config_run _ _ items (PStr name)) by assumption.
    rewrite Hcls. reflexivity. }
  split; [apply dict_get_remove_same|].
  split; [intros k Hk; now apply dict_get_remove_other|].
  assert (Hcell' : heap (ray (World (self w)
              (set_heap (fun h => h ++ [PDict (dict_remove items "type"%string)]) (ray w))
              (sub w))) !! agent_config = Some (PDict items)).
  { destruct w as [e [hp ri acs sb wt td tc ck cr] x]. cbn in Hcell |- *.
    now apply lookup_app_l_Some. }
  split; [exact Hcell'|]. split; [reflexivity|].
  rewrite (build_agent_from_config_run _ _ items (PStr name)) by assumption.
  cbn [fst]. now rewrite Hcls.
Qed.

(** [build_agent_from_config_pops_on_a_copy] on the config object of the
    example runtime, with a class [dqn] that counts its keyword arguments. *)
Lemma build_agent_from_config_pops_on_a_copy_witness :
  exists (kwargs : list (string * pyval)) w',
    RayExecutor.build_agent_from_config
      [("dqn"%string, fun kwargs => Ret (length kwargs))] 0%nat
      (World (RayExecutor.__init__ []) (Fixtures.runtime0 Fixtures.ticking_clock) tt)
    = (Ret (length kwargs), w')
    /\ dict_get kwargs "type"%string = None
    /\ heap (ray w') !! 0%nat = Some (PDict [("type"%string, PStr "dqn")]).
Proof.
  destruct (build_agent_from_config_pops_on_a_copy
              [("dqn"%string, fun kwargs => Ret (length kwargs))]
              (fun kwargs => Ret (length kwargs)) 0%nat
              [("type"%string, PStr "dqn")] "dqn"
              (World (RayExecutor.__init__ []) (Fixtures.runtime0 Fixtures.ticking_clock) tt)
              eq_refl eq_refl eq_refl)
    as (kwargs & w' & Hrun & Hnone & _ & Hcell & _).
  exists kwargs, w'. repeat split; assumption.
Defined.

(** X19. The errors of [build_agent_from_config] on a config dict.  Without
    a [type] the pop raises [KeyError]; with a [type] that is no registered
    class name the call raises [TypeError].  In both cases the caller's
    config object is left as it was and the executor is not touched. *)
Theorem build_agent_from_config_errors {X A}
    (lookup_classes : list (string * (list (string * pyval) -> outcome A)))
    (agent_config : nat) (items : list (string * pyval)) (w : world X) :
  heap (ray w) !! agent_config = Some (PDict items) ->
  (forall name, dict_get items "type"%string = Some (PStr name) ->
                dict_get lookup_classes name = None) ->
  exists w',
    RayExecutor.build_agent_from_config lookup_classes agent_config w
    = (Raise (if dict_contains items "type"%string then TypeError else KeyError), w')
    /\ heap (ray w') !! agent_config = Some (PDict items)
    /\ self w' = self w.
Proof.
  intros Hcell Hunknown. unfold dict_contains.
  destruct (dict_get items "type"%string) as [type|] eqn:Htype.
  - eexists. split.
    { rewrite (build_agent_from_config_run _ _ items type) by assumption.
      destruct type as [| | | |name|]; try reflexivity.
      now rewrite (Hunknown name eq_refl). }
    split; [|reflexivity].
    destruct w as [e [hp ri acs sb wt td tc ck cr] x]. cbn in Hcell |- *.
    now apply lookup_app_l_Some.
  - destruct w as [e [hp ri acs sb wt td tc ck cr] x]. cbn in Hcell.
    eexists. split.
    { unfold RayExecutor.build_agent_from_config, deepcopy.
      unfold bind, get_ray, on_ray, ret; cbn.
      rewrite Hcell. cbn.
      rewrite list_lookup_middle by reflexivity. rewrite Htype. reflexivity. }
    split; [|reflexivity]. cbn. now apply lookup_app_l_Some.
Qed.

(** [build_agent_from_config_errors] on the config object of the example
    runtime when no class is registered. *)
Lemma build_agent_from_config_errors_witness :
  exists w',
    RayExecutor.build_agent_from_config (A := nat) [] 0%nat
      (World (RayExecutor.__init__ []) (Fixtures.runtime0 Fixtures.ticking_clock) tt)
    = (Raise TypeError, w')
    /\ heap (ray w') !! 0%nat = Some (PDict [("type"%string, PStr "dqn")]).
Proof.
  destruct (build_agent_from_config_errors (A := nat) [] 0%nat
              [("type"%string, PStr "dqn")]
              (World (RayExecutor.__init__ []) (Fixtures.runtime0 Fixtures.ticking_clock) tt)
              eq_refl)
    as (w' & Hrun & Hcell & _).
  - intros name _. reflexivity.
  - exists w'. split; assumption.
Defined.

(** X20. [build_env_from_config] gives an environment only when the spec
    has a [type] that names a registered class and a [gym_env], and then it
    is what that class gives for the value of [gym_env]; a spec without
    [gym_env] raises [KeyError] unless its type is a dict, also when the
    type names no class. *)
Theorem build_env_from_config_result {E : Type}
    (lookup_classes : list (string * (pyval -> outcome E)))
    (env_spec : list (string * pyval)) :
  (forall env,
     RayExecutor.build_env_from_config lookup_classes env_spec = Ret env ->
     exists name env_cls gym_env,
       dict_get env_spec "type"%string = Some (PStr name)
       /\ dict_get lookup_classes name = Some env_cls
       /\ dict_get env_spec "gym_env"%string = Some gym_env
       /\ env_cls gym_env = Ret env)
  /\ (dict_get env_spec "gym_env"%string = None ->
      (forall items, dict_get env_spec "type"%string <> Some (PDict items)) ->
      RayExecutor.build_env_from_config lookup_classes env_spec = Raise KeyError).
Proof.
  unfold RayExecutor.build_env_from_config. split.
  - intros env H.
    destruct (dict_get env_spec "type"%string) as [[| | | |name|]|]; try discriminate;
      destruct (dict_get env_spec "gym_env"%string) as [gym_env|]; try discriminate.
    destruct (dict_get lookup_classes name) as [env_cls|] eqn:Hcls; [|discriminate].
    now exists name, env_cls, gym_env.
  - intros Hgym Htype. rewrite Hgym.
    destruct (dict_get env_spec "type"%string) as [[| | | | |items]|]; try reflexivity.
    now destruct (Htype items).
Qed.

(** [build_env_from_config_result] on a spec without [gym_env] when no
    class is registered. *)
Lemma build_env_from_config_result_witness :
  RayExecutor.build_env_from_config (E := nat) []
    [("type"%string, PStr "openai")] = Raise KeyError.
Proof.
  apply (proj2 (build_env_from_config_result (E := nat) []
                  [("type"%string, PStr "openai")])).
  - reflexivity.
  - intros items. discriminate.
Defined.

(** ** What a step of the synchronous-batch executor leaves alone *)



(** ** The probe of a worker that was never registered *)

(** X22. [test_worker_init] looks up the label of a worker before it probes
    it: at the first worker of the list that has no entry in [worker_ids],
    after workers that are registered and were constructed successfully, it
    raises [KeyError], having submitted the probes of the workers before
    that one and no call to the unregistered worker; the task pool is
    untouched. *)
Theorem test_worker_init_unregistered_worker
    (w : SyncBatchExecutor.state) (passed : list worker) (unknown : worker)
    (rest : list worker) :
  ray_env_sample_workers (self w) = AttrList (passed ++ unknown :: rest) ->
  Forall (fun v => is_Some (dict_get (worker_ids (self w)) v)) passed ->
  Forall (fun v => exists a, actors (ray w) !! v = Some a
                             /\ constructor_success a = PBool true) passed ->
  dict_get (worker_ids (self w)) unknown = None ->
  exists w',
    SyncBatchExecutor.test_worker_init w = (Raise KeyError, w')
    /\ submitted (ray w')
       = submitted (ray w) ++ ((fun v => (v, get_constructor_success)) <$> passed)
    /\ sub w' = sub w.
Proof.
  intros Hattr Hreg Hpass Hunknown.
  assert (Hiter : RayExecutor.iter_sample_workers w
                  = (Ret (map KWorker (passed ++ unknown :: rest)), w)).
  { unfold RayExecutor.iter_sample_workers, bind, get_self. now rewrite Hattr. }
  destruct (test_workers_pass _ _ passed Hreg Hpass w eq_refl eq_refl)
    as (w1 & Hrun1 & _ & Hids1 & Hsub1 & Hx1).
  exists w1. split; [|split; assumption].
  unfold SyncBatchExecutor.test_worker_init.
  erewrite bind_Ret by exact Hiter.
  rewrite map_app, for_each_app. erewrite bind_Ret by exact Hrun1.
  cbn [map for_each]. erewrite bind_Raise; [reflexivity|].
  unfold SyncBatchExecutor.test_worker. erewrite bind_Raise; [reflexivity|].
  unfold RayExecutor.worker_ids_getitem, bind, get_self, raise.
  rewrite Hids1, Hunknown. reflexivity.
Qed.

(** [test_worker_init_unregistered_worker] on a cluster of two workers whose
    list of sample workers also names a handle 5 that was never created. *)
Lemma test_worker_init_unregistered_worker_witness :
  exists w',
    SyncBatchExecutor.test_worker_init
      (World (set_ray_env_sample_workers (AttrList [0; 1; 5]%nat)
                (self (Fixtures.cluster Fixtures.value_worker 2 Fixtures.ticking_clock
                         (SyncBatchExecutor.Attrs RayTaskPool.empty))))
             (ray (Fixtures.cluster Fixtures.value_worker 2 Fixtures.ticking_clock
                     (SyncBatchExecutor.Attrs RayTaskPool.empty)))
             (SyncBatchExecutor.Attrs RayTaskPool.empty))
    = (Raise KeyError, w')
    /\ submitted (ray w')
       = [(0%nat, get_constructor_success); (1%nat, get_constructor_success)].
Proof.
  destruct (test_worker_init_unregistered_worker
              (World (set_ray_env_sample_workers (AttrList [0; 1; 5]%nat)
                        (self (Fixtures.cluster Fixtures.value_worker 2
                                 Fixtures.ticking_clock
                                 (SyncBatchExecutor.Attrs RayTaskPool.empty))))
                     (ray (Fixtures.cluster Fixtures.value_worker 2
                             Fixtures.ticking_clock
                             (SyncBatchExecutor.Attrs RayTaskPool.empty)))
                     (SyncBatchExecutor.Attrs RayTaskPool.empty))
              [0; 1]%nat 5%nat [] eq_refl)
    as (w' & Hrun & Hsub & _).
  - repeat constructor; eexists; reflexivity.
  - repeat constructor; eexists; split; reflexivity.
  - reflexivity.
  - exists w'. split; [exact Hrun | exact Hsub].
Defined.
